(** * Accident-detection dashboard: the event-to-view layer of [script.js]

    A shallow embedding of the socket event handlers of [static/js/script.js]
    ([updateDetectionMetrics], [handleAccidentAlert], [addToTimeline],
    [getSeverityIcon], [showToast], [playAlertSound], [updateStats] and the
    top-level [window.onerror]) together with the JavaScript primitives they
    rest on: IEEE-754 doubles, truthiness, [||], [Number.prototype.toFixed],
    property lookup on object literals and [String.prototype.toLowerCase].

    Conventions.
    - A JavaScript number is a binary64 float ([PrimFloat.float]).
    - A payload is a JSON object.  Each field is absent, [null], or carries a
      value of the type the handlers use it at.
    - The page is a record of the DOM properties the handlers write.  Elements
      the script dereferences without a test are taken to exist; the two it
      tests for ([alertTimeline], [charts.severity]) are optional.
    - Handlers run in a state-and-exception monad: a thrown [TypeError] or
      [SyntaxError] keeps the writes made before it. *)

From Stdlib Require Import ZArith List String Ascii Bool Lia.
From Stdlib Require Import Floats DecimalString.
Import ListNotations.

Set Warnings "-inexact-float".
Local Open Scope string_scope.
Local Open Scope Z_scope.

(** ** JavaScript numbers *)

Module Num.

Definition number := float.

(** [ToBoolean] on a number: [+0], [-0] and [NaN] are falsy. *)
Definition truthy (x : number) : bool :=
  negb (PrimFloat.is_zero x || PrimFloat.is_nan x).

(** [a || b] when both operands are numbers. *)
Definition or (a b : number) : number :=
  if truthy a then a else b.

(** [x >= y]. *)
Definition ge (x y : number) : bool := PrimFloat.leb y x.

(** [x < y]. *)
Definition lt (x y : number) : bool := PrimFloat.ltb x y.

(** Decimal digits of a non-negative integer, ["0"] for zero. *)
Definition digits (n : Z) : string :=
  NilZero.string_of_uint (N.to_uint (Z.to_N n)).

Fixpoint zeros (k : nat) : string :=
  match k with
  | O => ""
  | S k' => String "0" (zeros k')
  end.

(** Steps 11.b to 11.d of [Number.prototype.toFixed]: the digits of [n],
    padded on the left to [f + 1] characters, with a point before the last
    [f] of them. *)
Definition place_point (n : Z) (f : nat) : string :=
  let m := digits n in
  match f with
  | O => m
  | S _ =>
      let k := String.length m in
      let m' := if Nat.leb k f then zeros (f + 1 - k) ++ m else m in
      let k' := String.length m' in
      substring 0 (k' - f) m' ++ "." ++ substring (k' - f) f m'
  end.

(** The integer [n] for which [n / 10^f - m * 2^e] is closest to zero, the
    larger one on a tie (step 11.a). *)
Definition nearest_scaled (m : positive) (e : Z) (f : nat) : Z :=
  let p := 10 ^ Z.of_nat f in
  if 0 <=? e
  then Z.pos m * 2 ^ e * p
  else
    let d := 2 ^ (- e) in
    (2 * Z.pos m * p + d) / (2 * d).

(** [m * 2^e >= 10^21]. *)
Definition at_least_1e21 (m : positive) (e : Z) : bool :=
  if 0 <=? e
  then 10 ^ 21 <=? Z.pos m * 2 ^ e
  else 10 ^ 21 * 2 ^ (- e) <=? Z.pos m.

(** *** [Number::toString] for a finite double of magnitude at least 1e21

    Such a double is the integer [m * 2^e] with [e >= 17].  The result is
    the shortest decimal [s * 10^(n-k)] ([k] digits) whose nearest double is
    that integer; among the shortest, the closest one, and the even [s] on a
    tie (the choice ECMA-262 recommends and the engines make). *)

(** Twice the bounds of the interval of reals that round to [m * 2^e], and
    whether the bounds themselves do (ties go to the even significand). *)
Definition rounding_interval (m : positive) (e : Z) : Z * Z * bool :=
  let x := Z.pos m * 2 ^ e in
  let up := 2 ^ e in
  let down := if Z.pos m =? 2 ^ 52 then 2 ^ (e - 1) else 2 ^ e in
  (2 * x - down, 2 * x + up, Z.even (Z.pos m)).

Definition rounds_to (iv : Z * Z * bool) (v : Z) : bool :=
  let '(lo, hi, closed) := iv in
  if closed
  then (lo <=? 2 * v) && (2 * v <=? hi)
  else (lo <? 2 * v) && (2 * v <? hi).

(** Number of decimal digits of a positive integer. *)
Definition ndigits (x : Z) : nat := String.length (digits x).

(** The better of two candidates [(s, n)] for the value [x]: the closer
    [s * 10^(n-k)], the even [s] on a tie. *)
Definition closer (x : Z) (k : nat) (a b : Z * nat) : Z * nat :=
  let value c := fst c * 10 ^ (Z.of_nat (snd c) - Z.of_nat k) in
  let da := Z.abs (value a - x) in
  let db := Z.abs (value b - x) in
  if da <? db then a
  else if db <? da then b
  else if Z.even (fst a) then a else b.

Definition best (x : Z) (k : nat) (cs : list (Z * nat)) : option (Z * nat) :=
  match cs with
  | [] => None
  | c :: cs' => Some (fold_left (closer x k) cs' c)
  end.

(** The candidates with exactly [k] digits. *)
Definition candidates (iv : Z * Z * bool) (x : Z) (k : nat) : list (Z * nat) :=
  let d := ndigits x in
  let p := 10 ^ (Z.of_nat d - Z.of_nat k) in
  let s := x / p in
  let ok c :=
    let '(s, n) := c in
    (10 ^ (Z.of_nat k - 1) <=? s) && (s <? 10 ^ Z.of_nat k)
    && rounds_to iv (s * 10 ^ (Z.of_nat n - Z.of_nat k)) in
  filter ok ([(s, d); (s + 1, d)]
             ++ match k with 1%nat => [(1, S d)] | _ => [] end).

(** Search [k = from, from + 1, ...] for the first length with a candidate. *)
Fixpoint shortest (iv : Z * Z * bool) (x : Z) (from fuel : nat)
  : option (Z * nat * nat) :=
  match fuel with
  | O => None
  | S fuel' =>
      match best x from (candidates iv x from) with
      | Some (s, n) => Some (s, n, from)
      | None => shortest iv x (S from) fuel'
      end
  end.

(** Steps 8 to 12 of [Number::toString] for [n > 21]. *)
Definition exponential (s : Z) (n : nat) : string :=
  let ds := digits s in
  let ex := digits (Z.of_nat n - 1) in
  match ds with
  | String c "" => String c "" ++ "e+" ++ ex
  | String c rest => String c "" ++ "." ++ rest ++ "e+" ++ ex
  | "" => "e+" ++ ex
  end.

Definition toString_large (m : positive) (e : Z) : string :=
  let x := Z.pos m * 2 ^ e in
  match shortest (rounding_interval m e) x 1 17 with
  | Some (s, n, _) => exponential s n
  | None => exponential x (ndigits x)
  end.

(** [x.toFixed(f)] for [f] = 0 or 1 (any [f <= 100] in fact). *)
Definition toFixed (x : number) (f : nat) : string :=
  match Prim2SF x with
  | S754_nan => "NaN"
  | S754_infinity false => "Infinity"
  | S754_infinity true => "-Infinity"
  | S754_zero _ => place_point 0 f
  | S754_finite sign m e =>
      (if sign then "-" else "")
      ++ (if at_least_1e21 m e
          then toString_large m e
          else place_point (nearest_scaled m e f) f)
  end.

End Num.


(** ** JSON fields, strings and object literals *)

(** A property of a parsed JSON payload: not there, [null], or a value. *)
Inductive field (A : Type) : Type :=
| Absent
| Null
| Val (a : A).

Arguments Absent {A}.
Arguments Null {A}.
Arguments Val {A} a.

Module Js.

(** [ToNumber]: [undefined] is [NaN], [null] is [+0]. *)
Definition toNumber (x : field Num.number) : Num.number :=
  match x with
  | Absent => PrimFloat.nan
  | Null => PrimFloat.zero
  | Val v => v
  end.

(** [ToBoolean] of an optional number. *)
Definition truthy_num (x : field Num.number) : bool :=
  match x with
  | Val v => Num.truthy v
  | _ => false
  end.

(** [x || d] for an optional number [x] and a number [d]. *)
Definition num_or (x : field Num.number) (d : Num.number) : Num.number :=
  match x with
  | Val v => Num.or v d
  | _ => d
  end.

(** [ToBoolean] of an optional string: the empty string is falsy. *)
Definition truthy_str (x : field string) : bool :=
  match x with
  | Val s => negb (String.eqb s "")
  | _ => false
  end.

(** [ToBoolean] of an optional boolean. *)
Definition truthy_bool (x : field bool) : bool :=
  match x with
  | Val b => b
  | _ => false
  end.

(** [ToBoolean] of an optional object: every object is truthy. *)
Definition truthy_obj {A : Type} (x : field A) : bool :=
  match x with
  | Val _ => true
  | _ => false
  end.

(** [ToString], as a template literal or a property key applies it. *)
Definition toString (x : field string) : string :=
  match x with
  | Absent => "undefined"
  | Null => "null"
  | Val s => s
  end.

(** [x === lit] for a string literal [lit]. *)
Definition strict_eq (x : field string) (lit : string) : bool :=
  match x with
  | Val s => String.eqb s lit
  | _ => false
  end.

Definition lower_char (c : ascii) : ascii :=
  let n := nat_of_ascii c in
  if (Nat.leb 65 n && Nat.leb n 90)%bool then ascii_of_nat (n + 32) else c.

Definition upper_char (c : ascii) : ascii :=
  let n := nat_of_ascii c in
  if (Nat.leb 97 n && Nat.leb n 122)%bool then ascii_of_nat (n - 32) else c.

Fixpoint map_chars (f : ascii -> ascii) (s : string) : string :=
  match s with
  | EmptyString => EmptyString
  | String c s' => String (f c) (map_chars f s')
  end.

(** [s.toLowerCase()] and [s.toUpperCase()] on ASCII text. *)
Definition toLowerCase : string -> string := map_chars lower_char.
Definition toUpperCase : string -> string := map_chars upper_char.

(** What reading [obj[key]] on an object literal of strings yields:
    [undefined], one of the literal's own strings, or a member inherited from
    [Object.prototype] (a function, or the prototype itself for [__proto__]). *)
Inductive value : Type :=
| Undefined
| Str (s : string)
| Inherited (key : string).

Definition object_prototype_keys : list string :=
  [ "constructor"; "hasOwnProperty"; "isPrototypeOf"; "propertyIsEnumerable";
    "toLocaleString"; "toString"; "valueOf"; "__proto__";
    "__defineGetter__"; "__defineSetter__"; "__lookupGetter__";
    "__lookupSetter__" ].

Fixpoint own_property (props : list (string * string)) (key : string)
  : option string :=
  match props with
  | [] => None
  | (k, v) :: rest => if String.eqb k key then Some v else own_property rest key
  end.

(** [obj[key]] for an object literal [obj] with the own properties [props]. *)
Definition get (props : list (string * string)) (key : string) : value :=
  match own_property props key with
  | Some v => Str v
  | None =>
      if existsb (String.eqb key) object_prototype_keys
      then Inherited key
      else Undefined
  end.

(** [ToBoolean] of such a value. *)
Definition truthy (v : value) : bool :=
  match v with
  | Undefined => false
  | Str s => negb (String.eqb s "")
  | Inherited _ => true
  end.

(** [a || b]. *)
Definition or (a b : value) : value := if truthy a then a else b.

End Js.

(** ** Payloads *)

(** [severity_factors] of a detection payload. *)
Record SeverityFactors : Type := {
  overlap : field Num.number;
  motion : field Num.number;
  debris : field Num.number
}.

(** The payload of [accident_alert] and [new_detection]. *)
Record Detection : Type := {
  accident_detected : field bool;
  severity : field string;
  confidence : field Num.number;
  vehicle_count : field Num.number;
  severity_factors : field SeverityFactors;
  severity_confidence : field Num.number
}.

(** [severity_counts] of a stats payload. *)
Record SeverityCounts : Type := {
  MINOR : field Num.number;
  MAJOR : field Num.number;
  CRITICAL : field Num.number
}.

(** The payload of [stats_update]. *)
Record Stats : Type := {
  accidents_detected : field Num.number;
  severity_counts : field SeverityCounts
}.

(** ** The page *)

(** [#accidentStatus] and [#statusBar]. *)
Record StatusBanner : Type := {
  statusText : string;
  statusColor : string;
  barWidth : string;
  barBackground : string
}.

(** The [active] marks of the [.severity-dot] elements: as the page came,
    removed from all of them, or removed from all and then put on the first
    match of a selector (if any). *)
Inductive DotMarks : Type :=
| MarksAsLoaded
| MarksCleared
| MarksOn (selector : string).

(** [#severityLevel] and the severity dots. *)
Record SeverityIndicator : Type := {
  severityText : string;
  dots : DotMarks
}.

(** [#confidenceValue], [#confidencePercentage] and [#confidencePath]. *)
Record Gauge : Type := {
  confidenceValue : string;
  confidencePercentage : string;
  strokeDasharray : string;
  strokeDashoffset : Num.number;
  stroke : string
}.

(** [#factorOverlap], [#factorMotion], [#factorDebris]. *)
Record FactorBars : Type := {
  factorOverlap : string;
  factorMotion : string;
  factorDebris : string
}.

(** A [.timeline-item]: the values interpolated into its markup. *)
Record TimelineItem : Type := {
  iconClass : string;
  icon : Js.value;
  title : string;
  timeLine : string
}.

(** A child node of [#alertTimeline]: an element, or a text or comment node
    (counted by [firstChild] and [lastChild], not by [children]). *)
Inductive Node : Type :=
| Element (item : TimelineItem)
| NonElement.

(** A toast appended to [#toastContainer]. *)
Record Toast : Type := {
  toastType : string;
  toastIcon : Js.value;
  toastTitle : string;
  toastMessage : string
}.

(** [charts.severity]: its dataset and what [update()] last drew. *)
Record Chart : Type := {
  chartData : list Num.number;
  chartDrawn : list Num.number
}.

(** [.connection-dot] and [#connectionText]. *)
Record ConnectionBadge : Type := {
  dotConnected : bool;
  dotDisconnected : bool;
  connectionText : string
}.

Record Page : Type := {
  banner : StatusBanner;
  indicator : SeverityIndicator;
  gauge : Gauge;
  vehicleCount : Num.number;
  factors : FactorBars;
  alertTimeline : option (list Node);
  toastContainer : list Toast;
  audioPlayed : list Js.value;
  confettiBursts : nat;
  counter24 : Num.number;
  severityChart : option Chart;
  connection : ConnectionBadge
}.

Definition with_banner (f : StatusBanner -> StatusBanner) (p : Page) : Page :=
  {| banner := f (banner p); indicator := indicator p; gauge := gauge p;
     vehicleCount := vehicleCount p; factors := factors p;
     alertTimeline := alertTimeline p; toastContainer := toastContainer p;
     audioPlayed := audioPlayed p; confettiBursts := confettiBursts p;
     counter24 := counter24 p; severityChart := severityChart p;
     connection := connection p |}.

Definition with_indicator (f : SeverityIndicator -> SeverityIndicator)
           (p : Page) : Page :=
  {| banner := banner p; indicator := f (indicator p); gauge := gauge p;
     vehicleCount := vehicleCount p; factors := factors p;
     alertTimeline := alertTimeline p; toastContainer := toastContainer p;
     audioPlayed := audioPlayed p; confettiBursts := confettiBursts p;
     counter24 := counter24 p; severityChart := severityChart p;
     connection := connection p |}.

Definition with_gauge (f : Gauge -> Gauge) (p : Page) : Page :=
  {| banner := banner p; indicator := indicator p; gauge := f (gauge p);
     vehicleCount := vehicleCount p; factors := factors p;
     alertTimeline := alertTimeline p; toastContainer := toastContainer p;
     audioPlayed := audioPlayed p; confettiBursts := confettiBursts p;
     counter24 := counter24 p; severityChart := severityChart p;
     connection := connection p |}.

Definition with_vehicleCount (n : Num.number) (p : Page) : Page :=
  {| banner := banner p; indicator := indicator p; gauge := gauge p;
     vehicleCount := n; factors := factors p;
     alertTimeline := alertTimeline p; toastContainer := toastContainer p;
     audioPlayed := audioPlayed p; confettiBursts := confettiBursts p;
     counter24 := counter24 p; severityChart := severityChart p;
     connection := connection p |}.

Definition with_factors (f : FactorBars -> FactorBars) (p : Page) : Page :=
  {| banner := banner p; indicator := indicator p; gauge := gauge p;
     vehicleCount := vehicleCount p; factors := f (factors p);
     alertTimeline := alertTimeline p; toastContainer := toastContainer p;
     audioPlayed := audioPlayed p; confettiBursts := confettiBursts p;
     counter24 := counter24 p; severityChart := severityChart p;
     connection := connection p |}.

Definition with_alertTimeline (t : option (list Node)) (p : Page) : Page :=
  {| banner := banner p; indicator := indicator p; gauge := gauge p;
     vehicleCount := vehicleCount p; factors := factors p;
     alertTimeline := t; toastContainer := toastContainer p;
     audioPlayed := audioPlayed p; confettiBursts := confettiBursts p;
     counter24 := counter24 p; severityChart := severityChart p;
     connection := connection p |}.

Definition with_toastContainer (f : list Toast -> list Toast) (p : Page) : Page :=
  {| banner := banner p; indicator := indicator p; gauge := gauge p;
     vehicleCount := vehicleCount p; factors := factors p;
     alertTimeline := alertTimeline p; toastContainer := f (toastContainer p);
     audioPlayed := audioPlayed p; confettiBursts := confettiBursts p;
     counter24 := counter24 p; severityChart := severityChart p;
     connection := connection p |}.

Definition with_audioPlayed (f : list Js.value -> list Js.value)
           (p : Page) : Page :=
  {| banner := banner p; indicator := indicator p; gauge := gauge p;
     vehicleCount := vehicleCount p; factors := factors p;
     alertTimeline := alertTimeline p; toastContainer := toastContainer p;
     audioPlayed := f (audioPlayed p); confettiBursts := confettiBursts p;
     counter24 := counter24 p; severityChart := severityChart p;
     connection := connection p |}.

Definition with_confettiBursts (f : nat -> nat) (p : Page) : Page :=
  {| banner := banner p; indicator := indicator p; gauge := gauge p;
     vehicleCount := vehicleCount p; factors := factors p;
     alertTimeline := alertTimeline p; toastContainer := toastContainer p;
     audioPlayed := audioPlayed p; confettiBursts := f (confettiBursts p);
     counter24 := counter24 p; severityChart := severityChart p;
     connection := connection p |}.

Definition with_counter24 (n : Num.number) (p : Page) : Page :=
  {| banner := banner p; indicator := indicator p; gauge := gauge p;
     vehicleCount := vehicleCount p; factors := factors p;
     alertTimeline := alertTimeline p; toastContainer := toastContainer p;
     audioPlayed := audioPlayed p; confettiBursts := confettiBursts p;
     counter24 := n; severityChart := severityChart p;
     connection := connection p |}.

Definition with_severityChart (c : option Chart) (p : Page) : Page :=
  {| banner := banner p; indicator := indicator p; gauge := gauge p;
     vehicleCount := vehicleCount p; factors := factors p;
     alertTimeline := alertTimeline p; toastContainer := toastContainer p;
     audioPlayed := audioPlayed p; confettiBursts := confettiBursts p;
     counter24 := counter24 p; severityChart := c;
     connection := connection p |}.

Definition with_connection (c : ConnectionBadge) (p : Page) : Page :=
  {| banner := banner p; indicator := indicator p; gauge := gauge p;
     vehicleCount := vehicleCount p; factors := factors p;
     alertTimeline := alertTimeline p; toastContainer := toastContainer p;
     audioPlayed := audioPlayed p; confettiBursts := confettiBursts p;
     counter24 := counter24 p; severityChart := severityChart p;
     connection := c |}.

(** ** Handlers as state transformers that may throw *)

Inductive exn : Type :=
| TypeError (what : string)
| SyntaxError (what : string).

Inductive outcome (A : Type) : Type :=
| Returned (a : A)
| Thrown (e : exn).

Arguments Returned {A} a.
Arguments Thrown {A} e.

Definition M (A : Type) : Type := Page -> outcome A * Page.

Definition ret {A : Type} (a : A) : M A := fun p => (Returned a, p).

Definition bind {A B : Type} (m : M A) (k : A -> M B) : M B :=
  fun p =>
    match m p with
    | (Returned a, p') => k a p'
    | (Thrown e, p') => (Thrown e, p')
    end.

Definition throw {A : Type} (e : exn) : M A := fun p => (Thrown e, p).

Definition read {A : Type} (f : Page -> A) : M A := fun p => (Returned (f p), p).

Definition modify (f : Page -> Page) : M unit := fun p => (Returned tt, f p).

Definition when (b : bool) (m : M unit) : M unit := if b then m else ret tt.

Declare Scope js_scope.
Delimit Scope js_scope with js.
Notation "x <- m ;; k" := (bind m (fun x => k))
  (at level 61, m at next level, right associativity) : js_scope.
Notation "m ;; k" := (bind m (fun _ => k))
  (at level 61, right associativity) : js_scope.
Local Open Scope js_scope.

(** ** Notification sink *)

Definition toast_icons : list (string * string) :=
  [ ("success", "fa-check-circle");
    ("warning", "fa-exclamation-triangle");
    ("error", "fa-times-circle");
    ("info", "fa-info-circle") ].

(** [showToast(message, type)]: the toast is appended to [#toastContainer].
    Its removal, by the close button or by the timer five seconds later, is
    a later task of the event loop and not part of the call: see
    [removeToast]. *)
Definition showToast (message type : string) : M unit :=
  modify (with_toastContainer (fun ts =>
    (ts ++ [ {| toastType := type;
                toastIcon := Js.get toast_icons type;
                toastTitle := Js.toUpperCase type;
                toastMessage := message |} ])%list)).

(** The data URI shared by the three entries of [sounds]. *)
Definition alert_wav : string :=
  "data:audio/wav;base64,UklGRlwAAABXQVZFZm10IBAAAAABAAEAQB8AAEAfAAABAAgAZGF0YVQAAACAgICAf39/f39/f3+AgICAf39/f39/f3+AgICAf39/f39/f3+AgICAf39/f39/f3+AgICAf39/f39/f3+AgIAAA".

Definition sounds : list (string * string) :=
  [ ("MINOR", alert_wav); ("MAJOR", alert_wav); ("CRITICAL", alert_wav) ].

(** [playAlertSound(severity)]: the source chosen for the [Audio] object is
    recorded; a rejected [play()] is swallowed by the empty [catch]. *)
Definition playAlertSound (severity : field string) : M unit :=
  let src := Js.or (Js.get sounds (Js.toString severity))
                   (Js.get sounds "MAJOR") in
  modify (with_audioPlayed (fun played => (played ++ [src])%list)).

(** [triggerConfetti()]: the call of [confetti] and the fifty particles it
    schedules count as one burst. *)
Definition triggerConfetti : M unit :=
  modify (with_confettiBursts S).

(** ** Timeline *)

Definition severity_icons : list (string * string) :=
  [ ("MINOR", "fa-car"); ("MAJOR", "fa-truck"); ("CRITICAL", "fa-bomb") ].

(** [getSeverityIcon(severity)]. *)
Definition getSeverityIcon (severity : field string) : Js.value :=
  Js.or (Js.get severity_icons (Js.toString severity))
        (Js.Str "fa-exclamation-triangle").

(** [x.toLowerCase()] on a payload string: a [TypeError] when the property
    is [undefined] or [null]. *)
Definition toLowerCase_of (x : field string) : M string :=
  match x with
  | Val s => ret (Js.toLowerCase s)
  | _ => throw (TypeError "Cannot read properties of undefined (reading 'toLowerCase')")
  end.

Definition is_element (n : Node) : bool :=
  match n with
  | Element _ => true
  | NonElement => false
  end.

(** [timeline.children]: the element children only. *)
Definition children (nodes : list Node) : list Node := filter is_element nodes.

(** The [.timeline-item] built by [addToTimeline]; [time] is what
    [new Date().toLocaleTimeString()] returns during the call. *)
Definition timeline_item (severityLower : string) (data : Detection)
           (time : string) : TimelineItem :=
  {| iconClass := severityLower;
     icon := getSeverityIcon (severity data);
     title := Js.toString (severity data) ++ " Accident Detected";
     timeLine := time ++ " - Confidence: "
                 ++ Num.toFixed (Js.toNumber (confidence data) * 100)%float 1
                 ++ "%" |}.

(** [addToTimeline(data)]. *)
Definition addToTimeline (data : Detection) (time : string) : M unit :=
  timeline <- read alertTimeline ;;
  match timeline with
  | None => ret tt
  | Some nodes =>
      severityLower <- toLowerCase_of (severity data) ;;
      let item := timeline_item severityLower data time in
      let inserted := Element item :: nodes in
      modify (with_alertTimeline (Some inserted)) ;;
      when (Nat.ltb 10 (List.length (children inserted)))
           (modify (with_alertTimeline (Some (removelast inserted))))
  end.

(** The continuation of [clearHistory()] on an [ok] response; the
    [TypeError] of a missing [#alertTimeline] is caught by its [try]. *)
Definition clearHistory_ok : M unit :=
  timeline <- read alertTimeline ;;
  match timeline with
  | None => ret tt
  | Some _ =>
      modify (with_alertTimeline (Some [])) ;;
      showToast "History cleared" "success"
  end.

(** ** Aggregate statistics *)

(** [updateStats(data)]. *)
Definition updateStats (data : Stats) : M unit :=
  modify (with_counter24 (Js.num_or (accidents_detected data) 24%float)) ;;
  chart <- read severityChart ;;
  match chart, severity_counts data with
  | Some _, Val counts =>
      let fresh := [ Js.num_or (MINOR counts) 12%float;
                     Js.num_or (MAJOR counts) 8%float;
                     Js.num_or (CRITICAL counts) 4%float ] in
      modify (with_severityChart (Some {| chartData := fresh; chartDrawn := fresh |}))
  | _, _ => ret tt
  end.

(** ** Connection badge *)

(** [updateConnectionStatus(connected)]. *)
Definition updateConnectionStatus (connected : bool) : M unit :=
  if connected
  then modify (with_connection {| dotConnected := true;
                                  dotDisconnected := false;
                                  connectionText := "Connected to server" |})
  else modify (with_connection {| dotConnected := false;
                                  dotDisconnected := true;
                                  connectionText := "Disconnected" |}).

(** ** Detection metrics and the socket handlers *)

(** An event the socket delivers.  An [accident_alert] carries the wall-clock
    string its timeline item will show. *)
Inductive Event : Type :=
| connect
| disconnect
| accident_alert (data : Detection) (time : string)
| new_detection (data : Detection)
| stats_update (data : Stats).

Section Handlers.

(** Whether the browser's selector parser accepts a selector;
    [querySelector] throws a [SyntaxError] on the others. *)
Variable selector_valid : string -> bool.

(** [document.querySelector(sel)?.classList.add('active')]. *)
Definition activate_first (sel : string) : M unit :=
  if selector_valid sel
  then modify (with_indicator (fun i =>
         {| severityText := severityText i; dots := MarksOn sel |}))
  else throw (SyntaxError sel).

(** The value shown by the gauge:
    [data.severity_confidence || (data.confidence * 100) || 0]. *)
Definition displayed_confidence (data : Detection) : Num.number :=
  if Js.truthy_num (severity_confidence data)
  then Js.toNumber (severity_confidence data)
  else Num.or (Js.toNumber (confidence data) * 100)%float 0%float.

(** The stroke of [#confidencePath]. *)
Definition confidence_stroke (c : Num.number) : string :=
  if Num.ge c 85%float then "#10b981"
  else if Num.ge c 65%float then "#f59e0b"
  else "#ef4444".

(** [updateDetectionMetrics(data)]. *)
Definition updateDetectionMetrics (data : Detection) : M unit :=
  (if Js.truthy_bool (accident_detected data)
   then modify (with_banner (fun _ =>
          {| statusText := "ACCIDENT DETECTED";
             statusColor := "#ef4444";
             barWidth := "100%";
             barBackground := "linear-gradient(90deg, #ef4444, #f59e0b)" |}))
   else modify (with_banner (fun b =>
          {| statusText := "Normal";
             statusColor := "#10b981";
             barWidth := "0%";
             barBackground := barBackground b |}))) ;;
  when (Js.truthy_str (severity data))
       (modify (with_indicator (fun i =>
          {| severityText := Js.toString (severity data); dots := dots i |})) ;;
        modify (with_indicator (fun i =>
          {| severityText := severityText i; dots := MarksCleared |})) ;;
        severityLower <- toLowerCase_of (severity data) ;;
        activate_first (".severity-dot." ++ severityLower)) ;;
  let confidence := displayed_confidence data in
  let circumference := 100%float in
  let offset := (circumference - (confidence / 100) * circumference)%float in
  modify (with_gauge (fun _ =>
    {| confidenceValue := Num.toFixed confidence 1 ++ "%";
       confidencePercentage := Num.toFixed confidence 0 ++ "%";
       strokeDasharray := "100 100";
       strokeDashoffset := offset;
       stroke := confidence_stroke confidence |})) ;;
  modify (with_vehicleCount (Js.num_or (vehicle_count data) 0%float)) ;;
  match severity_factors data with
  | Val sf =>
      modify (with_factors (fun _ =>
        {| factorOverlap := Num.toFixed (Js.num_or (overlap sf) 0%float) 0;
           factorMotion := Num.toFixed (Js.num_or (motion sf) 0%float) 0;
           factorDebris := Num.toFixed (Js.num_or (debris sf) 0%float) 0 |}))
  | _ => ret tt
  end.

(** [handleAccidentAlert(data)]. *)
Definition handleAccidentAlert (data : Detection) (time : string) : M unit :=
  showToast (Js.toString (severity data) ++ " Accident Detected!") "warning" ;;
  when (Js.strict_eq (severity data) "CRITICAL") triggerConfetti ;;
  playAlertSound (severity data) ;;
  addToTimeline data time ;;
  updateDetectionMetrics data.

(** The listeners registered by [initWebSocket]. *)
Definition listener (ev : Event) : M unit :=
  match ev with
  | connect =>
      updateConnectionStatus true ;;
      showToast "Connected to server" "success"
  | disconnect =>
      updateConnectionStatus false ;;
      showToast "Lost connection to server" "error"
  | accident_alert data time => handleAccidentAlert data time
  | new_detection data => updateDetectionMetrics data
  | stats_update data => updateStats data
  end.

(** [window.onerror]. *)
Definition window_onerror : M unit :=
  showToast "An error occurred" "error".

(** One event, from delivery to the end of the listener or, when the listener
    throws, of [window.onerror]. *)
Definition deliver (p : Page) (ev : Event) : Page :=
  match listener ev p with
  | (Returned _, p') => p'
  | (Thrown _, p') => snd (window_onerror p')
  end.

(** The events of a session, in the order the transport delivers them. *)
Definition deliver_all (p : Page) (evs : list Event) : Page :=
  fold_left deliver evs p.

End Handlers.

Arguments Num.toFixed : simpl never.
Arguments displayed_confidence : simpl never.
Arguments confidence_stroke : simpl never.

(** ** Pages and browsers used in the examples *)

(** A page right after load: the counter at its target 24, the severity chart
    as [initCharts] creates it, an empty timeline. *)
Definition loaded_page : Page :=
  {| banner := {| statusText := "Normal"; statusColor := "";
                  barWidth := ""; barBackground := "" |};
     indicator := {| severityText := "None"; dots := MarksAsLoaded |};
     gauge := {| confidenceValue := "0%"; confidencePercentage := "0%";
                 strokeDasharray := ""; strokeDashoffset := 0%float;
                 stroke := "" |};
     vehicleCount := 0%float;
     factors := {| factorOverlap := "0"; factorMotion := "0";
                   factorDebris := "0" |};
     alertTimeline := Some [];
     toastContainer := [];
     audioPlayed := [];
     confettiBursts := 0%nat;
     counter24 := 24%float;
     severityChart := Some {| chartData := [12; 8; 4]%float;
                              chartDrawn := [12; 8; 4]%float |};
     connection := {| dotConnected := false; dotDisconnected := false;
                      connectionText := "" |} |}.

(** A selector parser that is only known to accept the three selectors of
    the page's own severity dots. *)
Definition dot_selectors (sel : string) : bool :=
  existsb (String.eqb sel)
          [ ".severity-dot.minor"; ".severity-dot.major"; ".severity-dot.critical" ].

(** A detection payload with no property at all. *)
Definition empty_detection : Detection :=
  {| accident_detected := Absent; severity := Absent; confidence := Absent;
     vehicle_count := Absent; severity_factors := Absent;
     severity_confidence := Absent |}.

(** ** When [updateDetectionMetrics] returns *)

(** The selector [updateDetectionMetrics] hands to [querySelector], if any. *)
Definition severity_selector (data : Detection) : option string :=
  if Js.truthy_str (severity data)
  then Some (".severity-dot." ++ Js.toLowerCase (Js.toString (severity data)))
  else None.

(** The payload's severity is falsy, or its selector parses. *)
Definition metrics_complete (selector_valid : string -> bool)
           (data : Detection) : bool :=
  match severity_selector data with
  | Some sel => selector_valid sel
  | None => true
  end.

(** The page after the severity step alone has thrown. *)
Definition metrics_interrupted (data : Detection) (p : Page) : Page :=
  with_indicator (fun i =>
      {| severityText := Js.toString (severity data); dots := MarksCleared |})
    (with_banner (fun b =>
      if Js.truthy_bool (accident_detected data)
      then {| statusText := "ACCIDENT DETECTED"; statusColor := "#ef4444";
              barWidth := "100%";
              barBackground := "linear-gradient(90deg, #ef4444, #f59e0b)" |}
      else {| statusText := "Normal"; statusColor := "#10b981";
              barWidth := "0%"; barBackground := barBackground b |}) p).

(** The page [updateDetectionMetrics] leaves when it returns. *)
Definition banner_after (data : Detection) (b : StatusBanner) : StatusBanner :=
  if Js.truthy_bool (accident_detected data)
  then {| statusText := "ACCIDENT DETECTED"; statusColor := "#ef4444";
          barWidth := "100%";
          barBackground := "linear-gradient(90deg, #ef4444, #f59e0b)" |}
  else {| statusText := "Normal"; statusColor := "#10b981";
          barWidth := "0%"; barBackground := barBackground b |}.

Definition indicator_after (data : Detection) (i : SeverityIndicator)
  : SeverityIndicator :=
  match severity_selector data with
  | Some sel => {| severityText := Js.toString (severity data);
                   dots := MarksOn sel |}
  | None => i
  end.

Definition gauge_of (data : Detection) : Gauge :=
  let c := displayed_confidence data in
  {| confidenceValue := Num.toFixed c 1 ++ "%";
     confidencePercentage := Num.toFixed c 0 ++ "%";
     strokeDasharray := "100 100";
     strokeDashoffset := (100 - (c / 100) * 100)%float;
     stroke := confidence_stroke c |}.

Definition factors_of (sf : SeverityFactors) : FactorBars :=
  {| factorOverlap := Num.toFixed (Js.num_or (overlap sf) 0%float) 0;
     factorMotion := Num.toFixed (Js.num_or (motion sf) 0%float) 0;
     factorDebris := Num.toFixed (Js.num_or (debris sf) 0%float) 0 |}.

Definition factors_after (data : Detection) (f : FactorBars) : FactorBars :=
  match severity_factors data with
  | Val sf => factors_of sf
  | _ => f
  end.

Definition metrics_written (data : Detection) (p : Page) : Page :=
  with_factors (factors_after data)
    (with_vehicleCount (Js.num_or (vehicle_count data) 0%float)
      (with_gauge (fun _ => gauge_of data)
        (with_indicator (indicator_after data)
          (with_banner (banner_after data) p)))).

(** Payloads of the confidence examples. *)
Definition only_confidence (c : Num.number) : Detection :=
  {| accident_detected := Absent; severity := Absent; confidence := Val c;
     vehicle_count := Absent; severity_factors := Absent;
     severity_confidence := Absent |}.

Definition only_severity_confidence (c : Num.number) : Detection :=
  {| accident_detected := Absent; severity := Absent; confidence := Absent;
     vehicle_count := Absent; severity_factors := Absent;
     severity_confidence := Val c |}.

(** [{severity_confidence: 0, confidence: 0.5}]. *)
Definition zero_severity_confidence : Detection :=
  {| accident_detected := Absent; severity := Absent;
     confidence := Val 0.5%float;
     vehicle_count := Absent; severity_factors := Absent;
     severity_confidence := Val 0%float |}.

(** [{severity: "MAJOR", severity_confidence: 42}]. *)
Definition major_42 : Detection :=
  {| accident_detected := Absent; severity := Val "MAJOR"; confidence := Absent;
     vehicle_count := Absent; severity_factors := Absent;
     severity_confidence := Val 42%float |}.

(** Stats payloads of the examples: a full one, [{severity_counts: {MINOR: 5}}]
    and one whose counts are all zero. *)
Definition full_stats : Stats :=
  {| accidents_detected := Val 30%float;
     severity_counts := Val {| MINOR := Val 1%float; MAJOR := Val 2%float;
                               CRITICAL := Val 3%float |} |}.

Definition minor_5 : Stats :=
  {| accidents_detected := Absent;
     severity_counts := Val {| MINOR := Val 5%float; MAJOR := Absent;
                               CRITICAL := Absent |} |}.

Definition all_zero_stats : Stats :=
  {| accidents_detected := Val 0%float;
     severity_counts := Val {| MINOR := Val 0%float; MAJOR := Val 0%float;
                               CRITICAL := Val 0%float |} |}.

(** The payload [data] with its [accidents_detected] replaced. *)
Definition with_accidents_detected (x : field Num.number) (data : Stats) : Stats :=
  {| accidents_detected := x; severity_counts := severity_counts data |}.

(** The dataset [updateStats] stores for the counts [c]. *)
Definition counts_dataset (c : SeverityCounts) : list Num.number :=
  [ Js.num_or (MINOR c) 12%float;
    Js.num_or (MAJOR c) 8%float;
    Js.num_or (CRITICAL c) 4%float ].

(** A number that is neither [+0] nor [-0]. *)
Definition nonzero (x : Num.number) : Prop := PrimFloat.eqb x 0%float = false.

(** The page after the three notifications that open [handleAccidentAlert]. *)
Definition alert_notified (data : Detection) (p : Page) : Page :=
  snd ((showToast (Js.toString (severity data) ++ " Accident Detected!") "warning" ;;
        when (Js.strict_eq (severity data) "CRITICAL") triggerConfetti ;;
        playAlertSound (severity data)) p).

(** The child nodes of [#alertTimeline] once [item] is inserted first and the
    limit of ten is applied. *)
Definition timeline_after (item : TimelineItem) (nodes : list Node) : list Node :=
  let inserted := Element item :: nodes in
  if Nat.ltb 10 (List.length (children inserted))
  then removelast inserted
  else inserted.

(** The payload [data] with its [severity_confidence] replaced. *)
Definition with_severity_confidence (sc : field Num.number) (data : Detection)
  : Detection :=
  {| accident_detected := accident_detected data; severity := severity data;
     confidence := confidence data; vehicle_count := vehicle_count data;
     severity_factors := severity_factors data; severity_confidence := sc |}.

(** [{confidence: 0.9}]: an alert that lacks its severity. *)
Definition no_severity : Detection := only_confidence 0.9%float.

(** The newest item of the timeline, if its first child is an element. *)
Definition newest (p : Page) : option TimelineItem :=
  match alertTimeline p with
  | Some (Element item :: _) => Some item
  | _ => None
  end.

(** An alert as the socket delivers it: the payload and the clock string. *)
Definition alert_event (a : Detection * string) : Event :=
  accident_alert (fst a) (snd a).

(** The timeline item [addToTimeline] builds for an alert. *)
Definition alert_item (a : Detection * string) : TimelineItem :=
  timeline_item (Js.toLowerCase (Js.toString (severity (fst a)))) (fst a) (snd a).

(** The payload has a [severity] string. *)
Definition carries_severity (data : Detection) : bool :=
  match severity data with
  | Val _ => true
  | _ => false
  end.

(** Twelve alerts, numbered by their clock strings. *)
Definition alert_of (sev time : string) (c : Num.number) : Detection * string :=
  ({| accident_detected := Val true; severity := Val sev; confidence := Val c;
      vehicle_count := Val 2%float; severity_factors := Absent;
      severity_confidence := Absent |}, time).

Definition twelve_alerts : list (Detection * string) :=
  [ alert_of "MINOR" "10:00:01" 0.51%float;
    alert_of "MAJOR" "10:00:02" 0.52%float;
    alert_of "CRITICAL" "10:00:03" 0.53%float;
    alert_of "MINOR" "10:00:04" 0.54%float;
    alert_of "MAJOR" "10:00:05" 0.55%float;
    alert_of "CRITICAL" "10:00:06" 0.56%float;
    alert_of "MINOR" "10:00:07" 0.57%float;
    alert_of "MAJOR" "10:00:08" 0.58%float;
    alert_of "CRITICAL" "10:00:09" 0.59%float;
    alert_of "MINOR" "10:00:10" 0.60%float;
    alert_of "MAJOR" "10:00:11" 0.61%float;
    alert_of "CRITICAL" "10:00:12" 0.62%float ].

(** [{severity_factors: {overlap: 73.4}}]. *)
Definition overlap_only : Detection :=
  {| accident_detected := Absent; severity := Absent; confidence := Absent;
     vehicle_count := Absent;
     severity_factors := Val {| overlap := Val 73.4%float; motion := Absent;
                                debris := Absent |};
     severity_confidence := Absent |}.

(** A full detection: a MAJOR accident, three vehicles, overlap 73.4. *)
Definition major_detection : Detection :=
  {| accident_detected := Val true; severity := Val "MAJOR";
     confidence := Val 0.9%float; vehicle_count := Val 3%float;
     severity_factors := Val {| overlap := Val 73.4%float; motion := Absent;
                                debris := Absent |};
     severity_confidence := Absent |}.

(** ** Further page operations and observations *)

(** How the [fetch] of [clearHistory] ends: the promise rejects, or a
    response arrives with its [ok] flag. *)
Inductive FetchOutcome : Type :=
| Rejected
| Responded (ok : bool).

(** [clearHistory()]: [confirmed] is what [confirm] returns.  A rejected
    fetch and the [TypeError] of a missing [#alertTimeline] both end in the
    [catch], which only logs. *)
Definition clearHistory (confirmed : bool) (outcome : FetchOutcome) : M unit :=
  if negb confirmed then ret tt
  else
    match outcome with
    | Rejected => ret tt
    | Responded ok => if ok then clearHistory_ok else ret tt
    end.

(** The detection widgets: status banner, severity indicator, gauge,
    vehicle count and factor bars. *)
Definition snapshot (p : Page)
  : StatusBanner * SeverityIndicator * Gauge * Num.number * FactorBars :=
  (banner p, indicator p, gauge p, vehicleCount p, factors p).

(** The aggregate widgets: the accidents counter and the severity chart. *)
Definition aggregate (p : Page) : Num.number * option Chart :=
  (counter24 p, severityChart p).

(** The particles, sounds and confetti of the notification sink. *)
Definition notifications (p : Page) : list Toast * list Js.value * nat :=
  (toastContainer p, audioPlayed p, confettiBursts p).

(** Number of element children, and of other child nodes. *)
Definition items (nodes : list Node) : nat := List.length (children nodes).

Definition strays (nodes : list Node) : nat :=
  List.length (filter (fun n => negb (is_element n)) nodes).

(** The kinds of events. *)
Definition is_detection (ev : Event) : bool :=
  match ev with
  | accident_alert _ _ | new_detection _ => true
  | _ => false
  end.

Definition is_stats (ev : Event) : bool :=
  match ev with
  | stats_update _ => true
  | _ => false
  end.

Definition is_connection (ev : Event) : bool :=
  match ev with
  | connect | disconnect => true
  | _ => false
  end.

Definition is_alert (ev : Event) : bool :=
  match ev with
  | accident_alert _ _ => true
  | _ => false
  end.

(** The badge [updateConnectionStatus] writes. *)
Definition badge_of (connected : bool) : ConnectionBadge :=
  if connected
  then {| dotConnected := true; dotDisconnected := false;
          connectionText := "Connected to server" |}
  else {| dotConnected := false; dotDisconnected := true;
          connectionText := "Disconnected" |}.

(** The last [connect] or [disconnect] of a run of events, if any. *)
Fixpoint last_connection (evs : list Event) : option bool :=
  match evs with
  | [] => None
  | ev :: rest =>
      match last_connection rest with
      | Some c => Some c
      | None =>
          match ev with
          | connect => Some true
          | disconnect => Some false
          | _ => None
          end
      end
  end.

(** The toast of [window.onerror]. *)
Definition error_toast : Toast :=
  {| toastType := "error"; toastIcon := Js.Str "fa-times-circle";
     toastTitle := "ERROR"; toastMessage := "An error occurred" |}.

(** The toast that opens [handleAccidentAlert]. *)
Definition alert_toast (data : Detection) : Toast :=
  {| toastType := "warning"; toastIcon := Js.Str "fa-exclamation-triangle";
     toastTitle := "WARNING";
     toastMessage := Js.toString (severity data) ++ " Accident Detected!" |}.

(** Whether the listener of an event returns, read off the page and the
    payload. *)
Definition alert_returns (selector_valid : string -> bool) (data : Detection)
           (p : Page) : bool :=
  (match alertTimeline p with
   | None => true
   | Some _ => carries_severity data
   end) && metrics_complete selector_valid data.

Definition listener_returns (selector_valid : string -> bool) (ev : Event)
           (p : Page) : bool :=
  match ev with
  | accident_alert data _ => alert_returns selector_valid data p
  | new_detection data => metrics_complete selector_valid data
  | _ => true
  end.

(** The payload [data] with its [severity] replaced. *)
Definition with_severity (s : field string) (data : Detection) : Detection :=
  {| accident_detected := accident_detected data; severity := s;
     confidence := confidence data; vehicle_count := vehicle_count data;
     severity_factors := severity_factors data;
     severity_confidence := severity_confidence data |}.

(** A page whose timeline came with a text node and a comment around one
    item. *)
Definition cluttered_page : Page :=
  with_alertTimeline
    (Some [ NonElement;
            Element (alert_item (alert_of "MINOR" "09:59:59" 0.5%float));
            NonElement ])
    loaded_page.

(** The source [playAlertSound] gives the [Audio] object. *)
Definition alert_source (severity : field string) : Js.value :=
  Js.or (Js.get sounds (Js.toString severity)) (Js.get sounds "MAJOR").

(** The page [handleAccidentAlert] hands to [updateDetectionMetrics], when
    [addToTimeline] returns. *)
Definition alert_recorded (data : Detection) (time : string) (p : Page) : Page :=
  match alertTimeline p, severity data with
  | Some nodes, Val s =>
      with_alertTimeline
        (Some (timeline_after (timeline_item (Js.toLowerCase s) data time) nodes))
        (alert_notified data p)
  | _, _ => alert_notified data p
  end.

(** [addToTimeline] throws: the page has a timeline and the payload no
    severity string. *)
Definition timeline_rejects (data : Detection) (p : Page) : bool :=
  match alertTimeline p with
  | Some _ => negb (carries_severity data)
  | None => false
  end.

(** The three severities the dashboard knows. *)
Definition known_severities : list string := [ "MINOR"; "MAJOR"; "CRITICAL" ].

(** The icon [getSeverityIcon] falls back to. *)
Definition fallback_icon : Js.value := Js.Str "fa-exclamation-triangle".

(** The string form of the severity names no member of [Object.prototype]. *)
Definition plain_key (severity : field string) : bool :=
  negb (existsb (String.eqb (Js.toString severity)) Js.object_prototype_keys).

(** The page has the [#alertTimeline] element. *)
Definition has_timeline (p : Page) : bool :=
  match alertTimeline p with
  | Some _ => true
  | None => false
  end.

(** The timeline an alert leaves, read off the timeline it finds. *)
Definition timeline_step (data : Detection) (time : string)
           (timeline : option (list Node)) : option (list Node) :=
  match timeline, severity data with
  | Some nodes, Val s =>
      Some (timeline_after (timeline_item (Js.toLowerCase s) data time) nodes)
  | _, _ => timeline
  end.

(** The sounds a run of events plays, the bursts of confetti it fires, and
    the number of its events that always show a toast. *)
Definition sound_of (ev : Event) : list Js.value :=
  match ev with
  | accident_alert data _ => [alert_source (severity data)]
  | _ => []
  end.

Definition bursts_of (ev : Event) : nat :=
  match ev with
  | accident_alert data _ =>
      if Js.strict_eq (severity data) "CRITICAL" then 1 else 0
  | _ => 0
  end.

Definition announces (ev : Event) : bool := is_alert ev || is_connection ev.

Fixpoint total_bursts (evs : list Event) : nat :=
  match evs with
  | [] => 0
  | ev :: rest => bursts_of ev + total_bursts rest
  end.

(** The page has the severity chart. *)
Definition has_chart (p : Page) : bool :=
  match severityChart p with
  | Some _ => true
  | None => false
  end.

(** ** Toast removal and runs of the event loop *)

(** The list without its [i]-th element; unchanged when there is none. *)
Fixpoint drop_nth {A : Type} (i : nat) (l : list A) : list A :=
  match l, i with
  | [], _ => []
  | _ :: rest, O => rest
  | a :: rest, S i' => a :: drop_nth i' rest
  end.

(** [toast.remove()], as the close button of a toast and the timer that
    [showToast] sets both end up calling it: the [i]-th toast leaves the
    container; removing a toast that is gone does nothing. *)
Definition removeToast (i : nat) (p : Page) : Page :=
  with_toastContainer (drop_nth i) p.

(** A task of the event loop: a socket event, or the removal of a toast. *)
Inductive Step : Type :=
| socket (ev : Event)
| toast_removed (i : nat).

Definition step (selector_valid : string -> bool) (p : Page) (s : Step) : Page :=
  match s with
  | socket ev => deliver selector_valid p ev
  | toast_removed i => removeToast i p
  end.

Definition run (selector_valid : string -> bool) (p : Page)
           (steps : list Step) : Page :=
  fold_left (step selector_valid) steps p.

(** The sounds and the confetti of a task. *)
Definition sound_of_step (s : Step) : list Js.value :=
  match s with
  | socket ev => sound_of ev
  | toast_removed _ => []
  end.

Definition bursts_of_step (s : Step) : nat :=
  match s with
  | socket ev => bursts_of ev
  | toast_removed _ => 0
  end.

Fixpoint total_bursts_of_steps (steps : list Step) : nat :=
  match steps with
  | [] => 0
  | s :: rest => bursts_of_step s + total_bursts_of_steps rest
  end.

(** [{severity: "MAJOR!"}]: its selector [.severity-dot.major!] does not
    parse. *)
Definition major_bang : Detection :=
  {| accident_detected := Absent; severity := Val "MAJOR!"; confidence := Absent;
     vehicle_count := Absent; severity_factors := Absent;
     severity_confidence := Absent |}.

(** A page whose timeline holds one text node, as pretty-printed markup
    leaves it. *)
Definition whitespace_page : Page :=
  with_alertTimeline (Some [NonElement]) loaded_page.

(** * Properties *)

Lemma updateDetectionMetrics_returns sv data p :
  metrics_complete sv data = true ->
  fst (updateDetectionMetrics sv data p) = Returned tt.
Proof.
  unfold metrics_complete, severity_selector, updateDetectionMetrics.
  unfold bind, when, modify, ret, activate_first, toLowerCase_of, throw.
  destruct (Js.truthy_bool (accident_detected data));
    destruct (severity data) as [| |s]; simpl;
    try (destruct (severity_factors data); reflexivity).
  all: destruct (negb (String.eqb s "")); simpl;
    try (destruct (severity_factors data); reflexivity).
  all: intros ->; simpl; destruct (severity_factors data); reflexivity.
Qed.

Lemma updateDetectionMetrics_throws sv data p :
  metrics_complete sv data = false ->
  exists e, updateDetectionMetrics sv data p
            = (Thrown e, metrics_interrupted data p).
Proof.
  unfold metrics_complete, severity_selector, updateDetectionMetrics.
  unfold metrics_interrupted.
  unfold bind, when, modify, ret, activate_first, toLowerCase_of, throw.
  destruct (Js.truthy_bool (accident_detected data));
    destruct (severity data) as [| |s]; simpl; try discriminate.
  all: destruct (negb (String.eqb s "")); simpl; try discriminate.
  all: intros ->; simpl; eexists; reflexivity.
Qed.

Lemma updateDetectionMetrics_run sv data p :
  metrics_complete sv data = true ->
  updateDetectionMetrics sv data p = (Returned tt, metrics_written data p).
Proof.
  unfold metrics_complete, metrics_written, indicator_after, factors_after.
  unfold severity_selector, banner_after, gauge_of, factors_of.
  unfold updateDetectionMetrics.
  unfold bind, when, modify, ret, activate_first, toLowerCase_of, throw.
  destruct p as [b i g v f tl ts au cf c24 ch cn].
  destruct (Js.truthy_bool (accident_detected data));
    destruct (severity data) as [| |s]; simpl;
    try (destruct (severity_factors data); destruct i; reflexivity).
  all: destruct (negb (String.eqb s "")); simpl;
    try (destruct (severity_factors data); destruct i; reflexivity).
  all: intros ->; simpl; destruct (severity_factors data); reflexivity.
Qed.

(** ** Confidence normalization *)

Lemma displayed_confidence_direct data x :
  severity_confidence data = Val x ->
  Num.truthy x = true ->
  displayed_confidence data = x.
Proof.
  intros Hsc Hx. unfold displayed_confidence.
  rewrite Hsc. simpl. rewrite Hx. reflexivity.
Qed.

Lemma displayed_confidence_scaled data :
  Js.truthy_num (severity_confidence data) = false ->
  Num.truthy (Js.toNumber (confidence data) * 100)%float = true ->
  displayed_confidence data = (Js.toNumber (confidence data) * 100)%float.
Proof.
  intros Hsc Hc. unfold displayed_confidence, Num.or.
  rewrite Hsc, Hc. reflexivity.
Qed.

Lemma displayed_confidence_default data :
  Js.truthy_num (severity_confidence data) = false ->
  Num.truthy (Js.toNumber (confidence data) * 100)%float = false ->
  displayed_confidence data = 0%float.
Proof.
  intros Hsc Hc. unfold displayed_confidence, Num.or.
  rewrite Hsc, Hc. reflexivity.
Qed.

(** C1 (as the code has it): whenever [updateDetectionMetrics] returns, the
    gauge label is the normalized confidence with one decimal and a percent
    sign.  The normalized confidence is [severity_confidence] when that is a
    truthy number (neither zero nor NaN); otherwise [confidence * 100] when
    that product is truthy; otherwise 0.  On any page [{confidence: 0.87}]
    shows 87.0%, [{severity_confidence: 42}] shows 42.0% and a payload with
    neither field shows 0.0%. *)
Theorem C1_confidence_normalization sv data p :
  metrics_complete sv data = true ->
  let shown d := confidenceValue (gauge (snd (updateDetectionMetrics sv d p))) in
  shown data = Num.toFixed (displayed_confidence data) 1 ++ "%"
  /\ (forall x, severity_confidence data = Val x -> Num.truthy x = true ->
      displayed_confidence data = x)
  /\ (Js.truthy_num (severity_confidence data) = false ->
      Num.truthy (Js.toNumber (confidence data) * 100)%float = true ->
      displayed_confidence data = (Js.toNumber (confidence data) * 100)%float)
  /\ (Js.truthy_num (severity_confidence data) = false ->
      Num.truthy (Js.toNumber (confidence data) * 100)%float = false ->
      displayed_confidence data = 0%float)
  /\ shown (only_confidence 0.87%float) = "87.0%"
  /\ shown (only_severity_confidence 42%float) = "42.0%"
  /\ shown empty_detection = "0.0%".
Proof.
  intros Hc shown. subst shown. cbv beta.
  refine (conj _ (conj _ (conj _ (conj _ (conj _ (conj _ _)))))).
  - rewrite (updateDetectionMetrics_run sv data p Hc). reflexivity.
  - apply displayed_confidence_direct.
  - apply displayed_confidence_scaled.
  - apply displayed_confidence_default.
  - rewrite updateDetectionMetrics_run by reflexivity. vm_compute. reflexivity.
  - rewrite updateDetectionMetrics_run by reflexivity. vm_compute. reflexivity.
  - rewrite updateDetectionMetrics_run by reflexivity. vm_compute. reflexivity.
Qed.

Lemma C1_confidence_normalization_witness :
  metrics_complete dot_selectors major_42 = true
  /\ confidenceValue
       (gauge (snd (updateDetectionMetrics dot_selectors major_42 loaded_page)))
     = Num.toFixed (displayed_confidence major_42) 1 ++ "%".
Proof.
  split.
  - reflexivity.
  - exact (proj1 (C1_confidence_normalization dot_selectors major_42
                    loaded_page eq_refl)).
Defined.

(** C1 as stated fails: [{severity_confidence: 0, confidence: 0.5}] provides
    [severity_confidence], yet the gauge shows 50.0% and not 0.0%. *)
Lemma C1_counterexample :
  severity_confidence zero_severity_confidence = Val 0%float
  /\ confidenceValue
       (gauge (snd (updateDetectionMetrics dot_selectors
                      zero_severity_confidence loaded_page)))
     = "50.0%"
  /\ Num.toFixed 0%float 1 ++ "%" = "0.0%".
Proof. vm_compute. repeat split. Qed.

(** ** Gauge colour bands *)

Local Open Scope float_scope.

(** On doubles [x < y] excludes [x >= y] (a NaN operand makes both false). *)
Lemma lt_not_ge x y : Num.lt x y = true -> Num.ge x y = false.
Proof.
  unfold Num.lt, Num.ge. rewrite ltb_spec, leb_spec.
  unfold SFltb, SFleb.
  destruct (Prim2SF x) as [s1|s1| |s1 m1 e1], (Prim2SF y) as [s2|s2| |s2 m2 e2];
    simpl; try discriminate;
    try (destruct s1; try destruct s2; simpl; (discriminate || reflexivity)).
  destruct s1, s2; simpl; try discriminate; try reflexivity.
  all: rewrite (Z.compare_antisym e1 e2).
  all: destruct (e1 ?= e2)%Z; simpl; try discriminate; try reflexivity.
  all: change (PosDef.Pos.compare_cont Eq m2 m1) with (Pos.compare m2 m1).
  all: change (PosDef.Pos.compare_cont Eq m1 m2) with (Pos.compare m1 m2).
  all: rewrite (Pos.compare_antisym m1 m2).
  all: destruct (m1 ?= m2)%positive; simpl; try discriminate; reflexivity.
Qed.

(** Two positive doubles with the same binary exponent are ordered as their
    significands are, so nothing below the smaller one reaches the larger. *)
Lemma SF_below_smaller (lo hi : positive) (ex : Z) (x : spec_float) :
  (lo < hi)%positive ->
  SFltb x (S754_finite false lo ex) = true ->
  SFleb (S754_finite false hi ex) x = false.
Proof.
  intros Hlt. unfold SFltb, SFleb.
  destruct x as [s|s| |s m e]; simpl.
  - intros _. reflexivity.
  - destruct s; intros H; [reflexivity | discriminate H].
  - intros H. discriminate H.
  - destruct s; [intros _; reflexivity |].
    change (PosDef.Pos.compare_cont Eq m lo) with (Pos.compare m lo).
    change (PosDef.Pos.compare_cont Eq hi m) with (Pos.compare hi m).
    destruct (Z.compare_spec e ex) as [He|He|He];
      destruct (Z.compare_spec ex e) as [He'|He'|He'];
      try (exfalso; lia); intros H; try discriminate H; try reflexivity.
    destruct (Pos.compare_spec m lo) as [Hm|Hm|Hm]; try discriminate H.
    destruct (Pos.compare_spec hi m) as [Hm'|Hm'|Hm'];
      try (exfalso; lia); reflexivity.
Qed.

(** Below 65 is below 85: both constants have the binary exponent -46. *)
Lemma lt_65_not_ge_85 c : Num.lt c 65 = true -> Num.ge c 85 = false.
Proof.
  unfold Num.lt, Num.ge. rewrite ltb_spec, leb_spec.
  set (a := Prim2SF 65); vm_compute in a; subst a.
  set (a := Prim2SF 85); vm_compute in a; subst a.
  apply SF_below_smaller. vm_compute. reflexivity.
Qed.

(** C5: the stroke of the gauge is the good colour [#10b981] from 85 up, the
    warn colour [#f59e0b] from 65 up to but not including 85, and the bad
    colour [#ef4444] below 65; so 85 is good, 84.999 and 65 are warn and
    64.999 is bad.  [updateDetectionMetrics] writes that stroke for the
    normalized confidence. *)
Theorem C5_confidence_bands sv data p c :
  metrics_complete sv data = true ->
  stroke (gauge (snd (updateDetectionMetrics sv data p)))
  = confidence_stroke (displayed_confidence data)
  /\ (Num.ge c 85 = true -> confidence_stroke c = "#10b981"%string)
  /\ (Num.ge c 65 = true -> Num.lt c 85 = true ->
      confidence_stroke c = "#f59e0b"%string)
  /\ (Num.lt c 65 = true -> confidence_stroke c = "#ef4444"%string)
  /\ confidence_stroke 85 = "#10b981"%string
  /\ confidence_stroke 84.999 = "#f59e0b"%string
  /\ confidence_stroke 65 = "#f59e0b"%string
  /\ confidence_stroke 64.999 = "#ef4444"%string.
Proof.
  intros Hc.
  refine (conj _ (conj _ (conj _ (conj _ _)))).
  - rewrite (updateDetectionMetrics_run sv data p Hc). reflexivity.
  - intros H. unfold confidence_stroke. rewrite H. reflexivity.
  - intros H65 H85. unfold confidence_stroke.
    rewrite (lt_not_ge _ _ H85), H65. reflexivity.
  - intros H. unfold confidence_stroke.
    rewrite (lt_65_not_ge_85 _ H), (lt_not_ge _ _ H). reflexivity.
  - vm_compute. repeat split.
Qed.

Lemma C5_confidence_bands_witness :
  metrics_complete dot_selectors major_42 = true
  /\ stroke (gauge (snd (updateDetectionMetrics dot_selectors major_42
                           loaded_page)))
     = confidence_stroke (displayed_confidence major_42)
  /\ Num.lt 42 65 = true
  /\ confidence_stroke 42 = "#ef4444"%string.
Proof.
  pose proof (C5_confidence_bands dot_selectors major_42 loaded_page 42
                eq_refl) as H.
  refine (conj eq_refl (conj (proj1 H) (conj eq_refl _))).
  exact (proj1 (proj2 (proj2 (proj2 H))) eq_refl).
Defined.

Local Close Scope float_scope.

(** ** Aggregate statistics *)

Lemma updateStats_returns data p : fst (updateStats data p) = Returned tt.
Proof.
  unfold updateStats, bind, modify, read, ret. simpl.
  destruct (severityChart p); [destruct (severity_counts data) |]; reflexivity.
Qed.

Lemma updateStats_counter data p :
  counter24 (snd (updateStats data p))
  = Js.num_or (accidents_detected data) 24%float.
Proof.
  unfold updateStats, bind, modify, read, ret. simpl.
  destruct (severityChart p); [destruct (severity_counts data) |]; reflexivity.
Qed.

Lemma updateStats_chart_written data p ch c :
  severityChart p = Some ch ->
  severity_counts data = Val c ->
  severityChart (snd (updateStats data p))
  = Some {| chartData := counts_dataset c; chartDrawn := counts_dataset c |}.
Proof.
  intros Hch Hc. unfold updateStats, bind, modify, read, ret. simpl.
  rewrite Hch, Hc. reflexivity.
Qed.

Lemma updateStats_chart_kept data p :
  severityChart p = None \/ severity_counts data = Absent
  \/ severity_counts data = Null ->
  severityChart (snd (updateStats data p)) = severityChart p.
Proof.
  unfold updateStats, bind, modify, read, ret. simpl.
  destruct (severityChart p) as [ch|] eqn:Hch.
  - intros [H | [H | H]]; [discriminate H | |]; rewrite H; simpl; exact Hch.
  - intros _. simpl. exact Hch.
Qed.

(** [x || d] is never zero when the default [d] is not. *)
Lemma num_or_nonzero x d : nonzero d -> nonzero (Js.num_or x d).
Proof.
  intros Hd. unfold nonzero, Js.num_or, Num.or, Num.truthy.
  destruct x as [| |v]; try exact Hd.
  unfold PrimFloat.is_zero.
  destruct (PrimFloat.eqb v PrimFloat.zero) eqn:Hz; simpl.
  - exact Hd.
  - destruct (PrimFloat.is_nan v); simpl; [exact Hd | exact Hz].
Qed.

(** [x || d] is the default for a zero, an absent and a [null] field alike. *)
Lemma num_or_falsy x d :
  x = Val 0%float \/ x = Absent \/ x = Null -> Js.num_or x d = d.
Proof. intros [-> | [-> | ->]]; reflexivity. Qed.

(** C10: [updateStats] treats a zero count like an absent one: the two
    payloads leave the same page.  With [accidents_detected = 0] the counter
    shows the built-in 24, and a severity count of 0 is stored as the built-in
    12, 8 or 4; the counter after an update, and every entry of a dataset an
    update stores, is different from zero. *)
Theorem C10_zero_shown_as_default data p :
  let p' := snd (updateStats data p) in
  (accidents_detected data = Val 0%float -> counter24 p' = 24%float)
  /\ updateStats (with_accidents_detected (Val 0%float) data) p
     = updateStats (with_accidents_detected Absent data) p
  /\ (forall d, Js.num_or (Val 0%float) d = Js.num_or Absent d)
  /\ nonzero (counter24 p')
  /\ (forall ch c,
        severityChart p = Some ch -> severity_counts data = Val c ->
        exists ch',
          severityChart p' = Some ch'
          /\ chartData ch' = counts_dataset c
          /\ chartDrawn ch' = counts_dataset c
          /\ (MINOR c = Val 0%float -> nth_error (chartData ch') 0 = Some 12%float)
          /\ (MAJOR c = Val 0%float -> nth_error (chartData ch') 1 = Some 8%float)
          /\ (CRITICAL c = Val 0%float -> nth_error (chartData ch') 2 = Some 4%float)
          /\ Forall nonzero (chartData ch')).
Proof.
  intros p'. subst p'.
  refine (conj _ (conj eq_refl (conj (fun d => eq_refl) (conj _ _)))).
  - intros H. rewrite updateStats_counter, H. reflexivity.
  - rewrite updateStats_counter. apply num_or_nonzero. reflexivity.
  - intros ch c Hch Hc.
    rewrite (updateStats_chart_written data p ch c Hch Hc).
    eexists. split; [reflexivity |]. simpl.
    refine (conj eq_refl (conj eq_refl (conj _ (conj _ (conj _ _))))).
    + intros ->. reflexivity.
    + intros ->. reflexivity.
    + intros ->. reflexivity.
    + unfold counts_dataset.
      repeat constructor; apply num_or_nonzero; reflexivity.
Qed.

Lemma C10_zero_shown_as_default_witness :
  accidents_detected all_zero_stats = Val 0%float
  /\ counter24 (snd (updateStats all_zero_stats loaded_page)) = 24%float.
Proof.
  split.
  - reflexivity.
  - exact (proj1 (C10_zero_shown_as_default all_zero_stats loaded_page) eq_refl).
Defined.

(** C2 (as the code has it): [updateStats] always returns.  The counter shows
    [accidents_detected], or the built-in 24 when that field is absent, [null]
    or zero, whatever it showed before.  When the chart exists and the payload
    carries [severity_counts], each of the three counts is stored and drawn,
    a count that is absent, [null] or zero as the built-in 12, 8 or 4,
    whatever the chart held before; otherwise the chart keeps its data.
    So [{severity_counts: {MINOR: 5}}] stores 5, 8, 4 and shows 24. *)
Theorem C2_stats_fall_back_to_defaults data p :
  let p' := snd (updateStats data p) in
  fst (updateStats data p) = Returned tt
  /\ counter24 p' = Js.num_or (accidents_detected data) 24%float
  /\ (accidents_detected data = Absent -> counter24 p' = 24%float)
  /\ (forall ch c,
        severityChart p = Some ch -> severity_counts data = Val c ->
        severityChart p'
        = Some {| chartData := counts_dataset c; chartDrawn := counts_dataset c |}
        /\ (MINOR c = Absent -> nth_error (counts_dataset c) 0 = Some 12%float)
        /\ (MAJOR c = Absent -> nth_error (counts_dataset c) 1 = Some 8%float)
        /\ (CRITICAL c = Absent -> nth_error (counts_dataset c) 2 = Some 4%float))
  /\ (severityChart p = None \/ severity_counts data = Absent
      \/ severity_counts data = Null ->
      severityChart p' = severityChart p)
  /\ (forall ch,
        severityChart p = Some ch ->
        severityChart (snd (updateStats minor_5 p))
        = Some {| chartData := [5; 8; 4]%float; chartDrawn := [5; 8; 4]%float |}
        /\ counter24 (snd (updateStats minor_5 p)) = 24%float).
Proof.
  intros p'. subst p'.
  refine (conj _ (conj _ (conj _ (conj _ (conj _ _))))).
  - apply updateStats_returns.
  - apply updateStats_counter.
  - intros H. rewrite updateStats_counter, H. reflexivity.
  - intros ch c Hch Hc.
    refine (conj _ (conj _ (conj _ _))).
    + apply (updateStats_chart_written data p ch c Hch Hc).
    + intros H. unfold counts_dataset. rewrite H. reflexivity.
    + intros H. unfold counts_dataset. rewrite H. reflexivity.
    + intros H. unfold counts_dataset. rewrite H. reflexivity.
  - apply updateStats_chart_kept.
  - intros ch Hch. split.
    + rewrite (updateStats_chart_written minor_5 p ch _ Hch eq_refl).
      reflexivity.
    + rewrite updateStats_counter. reflexivity.
Qed.

Lemma C2_stats_fall_back_to_defaults_witness :
  severityChart loaded_page
  = Some {| chartData := [12; 8; 4]%float; chartDrawn := [12; 8; 4]%float |}
  /\ severityChart (snd (updateStats minor_5 loaded_page))
     = Some {| chartData := [5; 8; 4]%float; chartDrawn := [5; 8; 4]%float |}.
Proof.
  split.
  - reflexivity.
  - exact (proj1 (proj2 (proj2 (proj2 (proj2 (proj2
             (C2_stats_fall_back_to_defaults minor_5 loaded_page)))))
             _ eq_refl)).
Defined.

(** C2 as stated fails: after a full update (30 accidents; counts 1, 2, 3)
    the partial update [{severity_counts: {MINOR: 5}}] does not keep MAJOR 2,
    CRITICAL 3 and the counter 30: the chart holds 5, 8, 4 and the counter
    shows 24. *)
Lemma C2_counterexample :
  let before := deliver dot_selectors loaded_page (stats_update full_stats) in
  let after := deliver dot_selectors before (stats_update minor_5) in
  option_map chartData (severityChart before) = Some [1; 2; 3]%float
  /\ counter24 before = 30%float
  /\ option_map chartData (severityChart after) = Some [5; 8; 4]%float
  /\ counter24 after = 24%float.
Proof. vm_compute. repeat split. Qed.

(** ** What [updateDetectionMetrics] leaves alone *)

Lemma updateDetectionMetrics_cases sv data p :
  snd (updateDetectionMetrics sv data p) = metrics_written data p
  \/ snd (updateDetectionMetrics sv data p) = metrics_interrupted data p.
Proof.
  destruct (metrics_complete sv data) eqn:Hc.
  - left. rewrite (updateDetectionMetrics_run sv data p Hc). reflexivity.
  - right. destruct (updateDetectionMetrics_throws sv data p Hc) as [e He].
    rewrite He. reflexivity.
Qed.

Lemma updateDetectionMetrics_timeline sv data p :
  alertTimeline (snd (updateDetectionMetrics sv data p)) = alertTimeline p.
Proof.
  destruct (updateDetectionMetrics_cases sv data p) as [H | H];
    rewrite H; reflexivity.
Qed.

(** C8 (as the code has it): the listener of [new_detection], whether it
    returns or throws, leaves the timeline, the toasts, the sounds played, the
    confetti, the accidents counter, the severity chart and the connection
    badge as they were.  The delivered event does the same, but for the
    toasts: when the listener throws (the selector made of the severity does
    not parse) [window.onerror] adds its one error toast, and when it returns
    no toast is added. *)
Theorem C8_new_detection_frame sv data p :
  let q := snd (listener sv (new_detection data) p) in
  let p' := deliver sv p (new_detection data) in
  (alertTimeline q = alertTimeline p
   /\ toastContainer q = toastContainer p
   /\ audioPlayed q = audioPlayed p
   /\ confettiBursts q = confettiBursts p
   /\ counter24 q = counter24 p
   /\ severityChart q = severityChart p
   /\ connection q = connection p)
  /\ (alertTimeline p' = alertTimeline p
      /\ audioPlayed p' = audioPlayed p
      /\ confettiBursts p' = confettiBursts p
      /\ counter24 p' = counter24 p
      /\ severityChart p' = severityChart p
      /\ connection p' = connection p)
  /\ toastContainer p'
     = (toastContainer p
        ++ if metrics_complete sv data then [] else [error_toast])%list.
Proof.
  intros q p'. subst q p'. unfold deliver. cbn [listener].
  destruct (metrics_complete sv data) eqn:Hc.
  - rewrite (updateDetectionMetrics_run sv data p Hc). cbn [snd].
    rewrite app_nil_r.
    refine (conj (conj _ (conj _ (conj _ (conj _ (conj _ (conj _ _))))))
              (conj (conj _ (conj _ (conj _ (conj _ (conj _ _))))) _));
      reflexivity.
  - destruct (updateDetectionMetrics_throws sv data p Hc) as [e He].
    rewrite He. cbn [snd].
    refine (conj (conj _ (conj _ (conj _ (conj _ (conj _ (conj _ _))))))
              (conj (conj _ (conj _ (conj _ (conj _ (conj _ _))))) _));
      reflexivity.
Qed.

(** C8 as stated fails: the delivery of [new_detection] with the severity
    "MAJOR!" ends with the error toast of [window.onerror] on a page that
    showed no toast. *)
Lemma C8_counterexample :
  toastContainer loaded_page = []
  /\ metrics_complete dot_selectors major_bang = false
  /\ toastContainer (deliver dot_selectors loaded_page (new_detection major_bang))
     = [error_toast].
Proof. vm_compute. repeat split. Qed.

(** ** The timeline *)

Lemma addToTimeline_inserts data time p nodes s :
  alertTimeline p = Some nodes ->
  severity data = Val s ->
  addToTimeline data time p
  = (Returned tt,
     with_alertTimeline
       (Some (timeline_after (timeline_item (Js.toLowerCase s) data time) nodes))
       p).
Proof.
  intros Hn Hs.
  unfold addToTimeline, timeline_after, bind, read, when, modify, ret,
    toLowerCase_of.
  rewrite Hn, Hs. unfold ret. cbv beta iota.
  destruct (Nat.ltb 10 _); reflexivity.
Qed.

Lemma addToTimeline_throws data time p nodes :
  alertTimeline p = Some nodes ->
  severity data = Absent \/ severity data = Null ->
  exists e, addToTimeline data time p = (Thrown e, p).
Proof.
  intros Hn Hs.
  unfold addToTimeline, bind, read, toLowerCase_of, throw.
  rewrite Hn.
  destruct Hs as [-> | ->]; eexists; reflexivity.
Qed.

Lemma handleAccidentAlert_steps sv data time p :
  handleAccidentAlert sv data time p
  = (addToTimeline data time ;; updateDetectionMetrics sv data)
      (alert_notified data p).
Proof.
  unfold handleAccidentAlert, alert_notified, bind, showToast, playAlertSound,
    triggerConfetti, when, modify, ret.
  destruct (Js.strict_eq (severity data) "CRITICAL"); reflexivity.
Qed.

Lemma alert_notified_timeline data p :
  alertTimeline (alert_notified data p) = alertTimeline p.
Proof.
  unfold alert_notified, bind, showToast, playAlertSound, triggerConfetti,
    when, modify, ret.
  destruct (Js.strict_eq (severity data) "CRITICAL"); reflexivity.
Qed.

(** The timeline after an alert that carries a severity string. *)
Lemma handleAccidentAlert_timeline sv data time p nodes s :
  alertTimeline p = Some nodes ->
  severity data = Val s ->
  alertTimeline (snd (handleAccidentAlert sv data time p))
  = Some (timeline_after (timeline_item (Js.toLowerCase s) data time) nodes).
Proof.
  intros Hn Hs. rewrite handleAccidentAlert_steps.
  rewrite <- (alert_notified_timeline data p) in Hn.
  unfold bind.
  rewrite (addToTimeline_inserts data time _ nodes s Hn Hs).
  rewrite updateDetectionMetrics_timeline. reflexivity.
Qed.

(** The item just inserted is never the one removed. *)
Lemma timeline_after_head item nodes :
  exists rest, timeline_after item nodes = Element item :: rest.
Proof.
  unfold timeline_after.
  destruct nodes as [|n nodes'].
  - exists []. reflexivity.
  - destruct (Nat.ltb 10 _).
    + exists (removelast (n :: nodes')). reflexivity.
    + exists (n :: nodes'). reflexivity.
Qed.

Lemma toFixed_of_undefined_times_100 :
  Num.toFixed (Js.toNumber Absent * 100)%float 1 = "NaN".
Proof. vm_compute. reflexivity. Qed.

Lemma handleAccidentAlert_run sv data time p nodes s :
  alertTimeline p = Some nodes ->
  severity data = Val s ->
  metrics_complete sv data = true ->
  handleAccidentAlert sv data time p
  = (Returned tt,
     metrics_written data
       (with_alertTimeline
          (Some (timeline_after (timeline_item (Js.toLowerCase s) data time) nodes))
          (alert_notified data p))).
Proof.
  intros Hn Hs Hc. rewrite handleAccidentAlert_steps.
  rewrite <- (alert_notified_timeline data p) in Hn.
  unfold bind.
  rewrite (addToTimeline_inserts data time _ nodes s Hn Hs).
  apply updateDetectionMetrics_run. exact Hc.
Qed.

(** C9: after an alert that carries a severity string, on a page with a
    timeline, the newest timeline item shows [confidence * 100] with one
    decimal, whatever [severity_confidence] is; without a [confidence] field
    it shows NaN%, while the gauge of the same alert shows a truthy
    [severity_confidence]. *)
Theorem C9_timeline_confidence sv data time p nodes s :
  alertTimeline p = Some nodes ->
  severity data = Val s ->
  let after d := snd (handleAccidentAlert sv d time p) in
  let shown d := option_map timeLine (newest (after d)) in
  shown data
  = Some (time ++ " - Confidence: "
          ++ Num.toFixed (Js.toNumber (confidence data) * 100)%float 1 ++ "%")
  /\ (forall sc, shown (with_severity_confidence sc data) = shown data)
  /\ (confidence data = Absent ->
      shown data = Some (time ++ " - Confidence: NaN%"))
  /\ (forall x,
        metrics_complete sv data = true ->
        severity_confidence data = Val x -> Num.truthy x = true ->
        confidenceValue (gauge (after data)) = Num.toFixed x 1 ++ "%").
Proof.
  intros Hn Hs after shown.
  assert (Hshown : forall d, severity d = Val s ->
            shown d = Some (timeLine (timeline_item (Js.toLowerCase s) d time))).
  { intros d Hd. subst shown after. cbv beta. unfold newest.
    rewrite (handleAccidentAlert_timeline sv d time p nodes s Hn Hd).
    destruct (timeline_after_head (timeline_item (Js.toLowerCase s) d time) nodes)
      as [rest ->].
    reflexivity. }
  refine (conj _ (conj _ (conj _ _))).
  - rewrite (Hshown data Hs). reflexivity.
  - intros sc. rewrite (Hshown data Hs).
    rewrite (Hshown (with_severity_confidence sc data) Hs). reflexivity.
  - intros Hc. rewrite (Hshown data Hs). cbn [timeLine timeline_item].
    rewrite Hc, toFixed_of_undefined_times_100. reflexivity.
  - intros x Hc Hx Ht. subst after. cbv beta.
    rewrite (handleAccidentAlert_run sv data time p nodes s Hn Hs Hc).
    cbn [snd metrics_written with_factors with_vehicleCount with_gauge gauge
         gauge_of confidenceValue].
    rewrite (displayed_confidence_direct data x Hx Ht). reflexivity.
Qed.

Lemma C9_timeline_confidence_witness :
  alertTimeline loaded_page = Some []
  /\ severity major_42 = Val "MAJOR"
  /\ option_map timeLine
       (newest (snd (handleAccidentAlert dot_selectors major_42 "10:15:00"
                       loaded_page)))
     = Some "10:15:00 - Confidence: NaN%"
  /\ confidenceValue
       (gauge (snd (handleAccidentAlert dot_selectors major_42 "10:15:00"
                      loaded_page)))
     = Num.toFixed 42%float 1 ++ "%".
Proof.
  pose proof (C9_timeline_confidence dot_selectors major_42 "10:15:00"
                loaded_page [] "MAJOR" eq_refl eq_refl) as H.
  refine (conj eq_refl (conj eq_refl (conj _ _))).
  - exact (proj1 (proj2 (proj2 H)) eq_refl).
  - exact (proj2 (proj2 (proj2 H)) 42%float eq_refl eq_refl eq_refl).
Defined.

(** ** Alerts without a severity *)

(** An unknown severity string that is not the name of a member of
    [Object.prototype] gets the fallback icon. *)
Lemma getSeverityIcon_fallback s :
  Js.own_property severity_icons s = None ->
  existsb (String.eqb s) Js.object_prototype_keys = false ->
  getSeverityIcon (Val s) = Js.Str "fa-exclamation-triangle".
Proof.
  intros Hown Hproto. unfold getSeverityIcon, Js.get. cbn [Js.toString].
  rewrite Hown, Hproto. reflexivity.
Qed.

(** An alert with an unknown severity string is recorded with the fallback
    icon and updates the metrics, provided the string is not the name of a
    member of [Object.prototype] and its selector parses. *)
Lemma unknown_severity_is_recorded sv data time p nodes s :
  alertTimeline p = Some nodes ->
  severity data = Val s ->
  Js.own_property severity_icons s = None ->
  existsb (String.eqb s) Js.object_prototype_keys = false ->
  metrics_complete sv data = true ->
  fst (handleAccidentAlert sv data time p) = Returned tt
  /\ option_map icon (newest (snd (handleAccidentAlert sv data time p)))
     = Some (Js.Str "fa-exclamation-triangle")
  /\ gauge (snd (handleAccidentAlert sv data time p)) = gauge_of data.
Proof.
  intros Hn Hs Hown Hproto Hc.
  rewrite (handleAccidentAlert_run sv data time p nodes s Hn Hs Hc).
  refine (conj eq_refl (conj _ eq_refl)).
  unfold newest.
  cbn [snd metrics_written with_factors with_vehicleCount with_gauge
       with_indicator with_banner with_alertTimeline alertTimeline].
  destruct (timeline_after_head (timeline_item (Js.toLowerCase s) data time) nodes)
    as [rest ->].
  cbn [option_map icon timeline_item]. rewrite Hs.
  rewrite (getSeverityIcon_fallback s Hown Hproto). reflexivity.
Qed.

(** C7 fails on the code: an alert whose [severity] is absent or [null], on a
    page with a timeline, makes [handleAccidentAlert] throw in
    [addToTimeline].  Nothing is added to the timeline, the detection metrics
    are not updated, and the delivery ends with the warning toast followed by
    the error toast of [window.onerror]. *)
Theorem C7_alert_without_severity_throws sv data time p nodes :
  alertTimeline p = Some nodes ->
  severity data = Absent \/ severity data = Null ->
  let r := handleAccidentAlert sv data time p in
  (exists e, fst r = Thrown e)
  /\ alertTimeline (snd r) = Some nodes
  /\ banner (snd r) = banner p
  /\ indicator (snd r) = indicator p
  /\ gauge (snd r) = gauge p
  /\ vehicleCount (snd r) = vehicleCount p
  /\ factors (snd r) = factors p
  /\ deliver sv p (accident_alert data time)
     = snd (window_onerror (alert_notified data p)).
Proof.
  intros Hn Hs r. subst r. unfold deliver. cbn [listener].
  rewrite handleAccidentAlert_steps.
  pose proof (alert_notified_timeline data p) as Ht.
  rewrite Hn in Ht.
  destruct (addToTimeline_throws data time (alert_notified data p) nodes Ht Hs)
    as [e He].
  unfold bind. rewrite He. cbn [fst snd].
  refine (conj (ex_intro _ e eq_refl) (conj Ht _)).
  unfold alert_notified, bind, showToast, playAlertSound, triggerConfetti,
    when, modify, ret.
  destruct (Js.strict_eq (severity data) "CRITICAL");
    refine (conj _ (conj _ (conj _ (conj _ (conj _ _))))); reflexivity.
Qed.

Lemma C7_alert_without_severity_throws_witness :
  alertTimeline loaded_page = Some []
  /\ severity no_severity = Absent
  /\ (exists e, fst (handleAccidentAlert dot_selectors no_severity "10:15:00"
                       loaded_page) = Thrown e)
  /\ alertTimeline (snd (handleAccidentAlert dot_selectors no_severity
                           "10:15:00" loaded_page)) = Some [].
Proof.
  pose proof (C7_alert_without_severity_throws dot_selectors no_severity
                "10:15:00" loaded_page [] eq_refl (or_introl eq_refl)) as H.
  exact (conj eq_refl (conj eq_refl (conj (proj1 H) (proj1 (proj2 H))))).
Defined.

(** ** Timeline capacity *)

Local Arguments firstn : simpl never.

Lemma children_of_elements nodes :
  forallb is_element nodes = true -> children nodes = nodes.
Proof.
  induction nodes as [|n nodes IH]; simpl; [reflexivity |].
  destruct (is_element n); simpl; [| discriminate].
  intros H. rewrite (IH H). reflexivity.
Qed.

Lemma timeline_after_firstn item nodes :
  forallb is_element nodes = true ->
  (List.length nodes <= 10)%nat ->
  timeline_after item nodes = firstn 10 (Element item :: nodes).
Proof.
  intros Hel Hlen. unfold timeline_after.
  assert (Hc : children (Element item :: nodes) = Element item :: nodes).
  { apply children_of_elements. simpl. exact Hel. }
  rewrite Hc.
  destruct (Nat.ltb_spec 10 (List.length (Element item :: nodes))) as [H | H].
  - rewrite removelast_firstn_len.
    replace (Nat.pred (List.length (Element item :: nodes))) with 10%nat
      by (simpl in *; lia).
    reflexivity.
  - symmetry. apply firstn_all2. exact H.
Qed.

Lemma forallb_firstn {A : Type} (f : A -> bool) n (l : list A) :
  forallb f l = true -> forallb f (firstn n l) = true.
Proof.
  revert n. induction l as [|a l IH]; intros [|n]; simpl; try reflexivity.
  intros H. apply andb_true_iff in H. destruct H as [Ha Hl].
  rewrite Ha, (IH n Hl). reflexivity.
Qed.

Lemma firstn_app_firstn {A : Type} n (a b : list A) :
  firstn n (a ++ firstn n b) = firstn n (a ++ b).
Proof.
  rewrite !firstn_app, firstn_firstn.
  replace (Nat.min (n - List.length a) n) with (n - List.length a)%nat by lia.
  reflexivity.
Qed.

Lemma deliver_alert_timeline sv p a nodes :
  alertTimeline p = Some nodes ->
  carries_severity (fst a) = true ->
  alertTimeline (deliver sv p (alert_event a))
  = Some (timeline_after (alert_item a) nodes).
Proof.
  intros Hn Hs. unfold carries_severity in Hs.
  destruct (severity (fst a)) as [| |s] eqn:Hsev; try discriminate Hs.
  pose proof (handleAccidentAlert_timeline sv (fst a) (snd a) p nodes s Hn Hsev)
    as Ht.
  unfold deliver, alert_event, alert_item. cbn [listener].
  rewrite Hsev. cbn [Js.toString].
  destruct (handleAccidentAlert sv (fst a) (snd a) p) as [[u | e] p'];
    cbn [snd] in Ht |- *; exact Ht.
Qed.

Lemma deliver_all_alerts_timeline sv alerts : forall p nodes,
  alertTimeline p = Some nodes ->
  forallb is_element nodes = true ->
  (List.length nodes <= 10)%nat ->
  forallb (fun a => carries_severity (fst a)) alerts = true ->
  alertTimeline (deliver_all sv p (map alert_event alerts))
  = Some (firstn 10 (map Element (rev (map alert_item alerts)) ++ nodes)).
Proof.
  induction alerts as [|a alerts IH]; intros p nodes Hn Hel Hlen Hsev.
  - cbn [map rev deliver_all fold_left app]. rewrite Hn. f_equal.
    symmetry. apply firstn_all2. exact Hlen.
  - simpl in Hsev. apply andb_true_iff in Hsev. destruct Hsev as [Ha Hrest].
    cbn [map deliver_all fold_left].
    pose proof (deliver_alert_timeline sv p a nodes Hn Ha) as Hstep.
    rewrite (timeline_after_firstn _ _ Hel Hlen) in Hstep.
    unfold deliver_all in IH.
    rewrite (IH _ _ Hstep).
    + cbn [rev]. rewrite map_app, <- app_assoc. cbn [map app].
      rewrite firstn_app_firstn. reflexivity.
    + apply forallb_firstn. simpl. exact Hel.
    + rewrite length_firstn. lia.
    + exact Hrest.
Qed.

(** Within these premises the limit holds.  On a page whose timeline holds
    only items, at most ten of them, delivering alerts that carry a severity
    string leaves the ten first of "new items, newest first, then the old
    ones"; the timeline never holds more than ten items, and from ten alerts
    on it holds exactly the ten most recent, newest first. *)
Theorem timeline_capacity_of_item_lists sv p nodes alerts :
  alertTimeline p = Some nodes ->
  forallb is_element nodes = true ->
  (List.length nodes <= 10)%nat ->
  forallb (fun a => carries_severity (fst a)) alerts = true ->
  let p' := deliver_all sv p (map alert_event alerts) in
  let newest_first := rev (map alert_item alerts) in
  alertTimeline p' = Some (firstn 10 (map Element newest_first ++ nodes))
  /\ (exists nodes', alertTimeline p' = Some nodes'
                     /\ (List.length nodes' <= 10)%nat
                     /\ forallb is_element nodes' = true)
  /\ ((10 <= List.length alerts)%nat ->
      alertTimeline p' = Some (map Element (firstn 10 newest_first))
      /\ List.length (firstn 10 newest_first) = 10%nat).
Proof.
  intros Hn Hel Hlen Hsev p' newest_first.
  pose proof (deliver_all_alerts_timeline sv alerts p nodes Hn Hel Hlen Hsev)
    as Ht.
  fold p' in Ht. fold newest_first in Ht.
  refine (conj Ht (conj _ _)).
  - eexists. split; [exact Ht |]. split.
    + rewrite length_firstn. lia.
    + apply forallb_firstn. rewrite forallb_app, Hel, andb_true_r.
      clear. induction newest_first; simpl; auto.
  - intros Hten.
    assert (Hl : List.length newest_first = List.length alerts).
    { unfold newest_first. rewrite length_rev, length_map. reflexivity. }
    split.
    + rewrite Ht. f_equal.
      rewrite firstn_app, length_map, Hl.
      replace (10 - List.length alerts)%nat with 0%nat by lia.
      cbn [firstn]. rewrite app_nil_r, firstn_map. reflexivity.
    + rewrite length_firstn. lia.
Qed.

(** The bound rests on the children being items: [children] counts elements
    while [lastChild] may be a text node, so a timeline that starts with one
    text node holds eleven items after twelve alerts. *)
Lemma text_node_is_evicted_first :
  option_map (fun ns => List.length (children ns))
    (alertTimeline
       (deliver_all dot_selectors
          (with_alertTimeline (Some [NonElement]) loaded_page)
          (map alert_event twelve_alerts)))
  = Some 11%nat.
Proof. vm_compute. reflexivity. Qed.

Lemma timeline_capacity_of_item_lists_witness :
  List.length twelve_alerts = 12%nat
  /\ alertTimeline (deliver_all dot_selectors loaded_page
                      (map alert_event twelve_alerts))
     = Some (map Element (firstn 10 (rev (map alert_item twelve_alerts))))
  /\ List.length (firstn 10 (rev (map alert_item twelve_alerts))) = 10%nat.
Proof.
  split; [reflexivity |].
  apply (proj2 (proj2 (timeline_capacity_of_item_lists dot_selectors loaded_page []
                         twelve_alerts eq_refl eq_refl (Nat.le_0_l 10)
                         eq_refl))).
  vm_compute. repeat constructor.
Defined.

(** ** Severity-factor bars *)

Lemma toFixed_default_factor : Num.toFixed (Js.num_or Absent 0%float) 0 = "0".
Proof. vm_compute. reflexivity. Qed.

(** C6 (as the code has it): whenever [updateDetectionMetrics] returns on a
    payload with a [severity_factors] object, the three bars show their
    factors with no decimals, a factor that is absent as 0; on a payload
    without that object the bars are left as they were.  The factors
    [{overlap: 73.4}] show 73, 0, 0. *)
Theorem C6_severity_factor_bars sv data p :
  metrics_complete sv data = true ->
  let p' := snd (updateDetectionMetrics sv data p) in
  (forall sf,
      severity_factors data = Val sf ->
      factors p'
      = {| factorOverlap := Num.toFixed (Js.num_or (overlap sf) 0%float) 0;
           factorMotion := Num.toFixed (Js.num_or (motion sf) 0%float) 0;
           factorDebris := Num.toFixed (Js.num_or (debris sf) 0%float) 0 |}
      /\ (overlap sf = Absent -> factorOverlap (factors p') = "0")
      /\ (motion sf = Absent -> factorMotion (factors p') = "0")
      /\ (debris sf = Absent -> factorDebris (factors p') = "0"))
  /\ (severity_factors data = Absent \/ severity_factors data = Null ->
      factors p' = factors p)
  /\ factors (snd (updateDetectionMetrics sv overlap_only p))
     = {| factorOverlap := "73"; factorMotion := "0"; factorDebris := "0" |}.
Proof.
  intros Hc p'. subst p'.
  rewrite (updateDetectionMetrics_run sv data p Hc).
  rewrite (updateDetectionMetrics_run sv overlap_only p eq_refl).
  cbn [snd metrics_written with_factors factors].
  unfold factors_after.
  refine (conj _ (conj _ _)).
  - intros sf Hsf. rewrite Hsf. unfold factors_of. cbn [factorOverlap factorMotion factorDebris].
    refine (conj eq_refl (conj _ (conj _ _)));
      intros ->; apply toFixed_default_factor.
  - intros [-> | ->]; reflexivity.
  - vm_compute. reflexivity.
Qed.

Lemma C6_severity_factor_bars_witness :
  metrics_complete dot_selectors major_detection = true
  /\ factors (snd (updateDetectionMetrics dot_selectors overlap_only loaded_page))
     = {| factorOverlap := "73"; factorMotion := "0"; factorDebris := "0" |}.
Proof.
  split.
  - reflexivity.
  - exact (proj2 (proj2 (C6_severity_factor_bars dot_selectors major_detection
                           loaded_page eq_refl))).
Defined.

(** C6 as stated fails: after [{severity_factors: {overlap: 73.4}}] a payload
    with no [severity_factors] object leaves the bars at 73, 0, 0; they are
    not reset to 0. *)
Lemma C6_counterexample :
  let before := deliver dot_selectors loaded_page (new_detection overlap_only) in
  let after := deliver dot_selectors before (new_detection empty_detection) in
  severity_factors empty_detection = Absent
  /\ factors after
     = {| factorOverlap := "73"; factorMotion := "0"; factorDebris := "0" |}.
Proof. vm_compute. split; reflexivity. Qed.

(** ** Sequences of detections *)

Lemma deliver_new_detection sv p data :
  metrics_complete sv data = true ->
  deliver sv p (new_detection data) = metrics_written data p.
Proof.
  intros Hc. unfold deliver. cbn [listener].
  rewrite (updateDetectionMetrics_run sv data p Hc). reflexivity.
Qed.

Lemma deliver_all_snoc sv p evs ev :
  deliver_all sv p (evs ++ [ev]) = deliver sv (deliver_all sv p evs) ev.
Proof. unfold deliver_all. rewrite fold_left_app. reflexivity. Qed.

(** C3 (as the code has it): after a non-empty sequence of [new_detection]
    events whose last listener returns, the accident status (text, colour,
    bar width), the confidence gauge and the vehicle count are those of the
    last payload alone.  The severity and the severity factors are those of
    the last payload when it carries a non-empty severity, respectively a
    [severity_factors] object; otherwise they, like the bar's background on a
    payload without an accident, stay as the earlier events left them. *)
Theorem C3_last_detection_wins_where_written sv p ds d :
  metrics_complete sv d = true ->
  let q := deliver_all sv p (map new_detection ds) in
  let p' := deliver_all sv p (map new_detection (ds ++ [d])) in
  let accident := Js.truthy_bool (accident_detected d) in
  statusText (banner p') = (if accident then "ACCIDENT DETECTED" else "Normal")
  /\ statusColor (banner p') = (if accident then "#ef4444" else "#10b981")
  /\ barWidth (banner p') = (if accident then "100%" else "0%")
  /\ gauge p' = gauge_of d
  /\ vehicleCount p' = Js.num_or (vehicle_count d) 0%float
  /\ (Js.truthy_str (severity d) = true ->
      indicator p'
      = {| severityText := Js.toString (severity d);
           dots := MarksOn (".severity-dot."
                            ++ Js.toLowerCase (Js.toString (severity d))) |})
  /\ (forall sf, severity_factors d = Val sf -> factors p' = factors_of sf)
  /\ (Js.truthy_str (severity d) = false -> indicator p' = indicator q)
  /\ (severity_factors d = Absent \/ severity_factors d = Null ->
      factors p' = factors q)
  /\ (accident = false -> barBackground (banner p') = barBackground (banner q))
  /\ (accident = true ->
      barBackground (banner p') = "linear-gradient(90deg, #ef4444, #f59e0b)").
Proof.
  intros Hc q p' accident.
  assert (Hp : p' = metrics_written d q).
  { subst p' q. rewrite map_app. cbn [map]. rewrite deliver_all_snoc.
    apply deliver_new_detection. exact Hc. }
  rewrite Hp. clear Hp.
  unfold metrics_written.
  cbn [banner indicator gauge vehicleCount factors with_factors
       with_vehicleCount with_gauge with_indicator with_banner].
  unfold banner_after, indicator_after, factors_after, severity_selector.
  fold accident.
  refine (conj _ (conj _ (conj _ (conj eq_refl (conj eq_refl
           (conj _ (conj _ (conj _ (conj _ (conj _ _)))))))))).
  - destruct accident; reflexivity.
  - destruct accident; reflexivity.
  - destruct accident; reflexivity.
  - intros ->. reflexivity.
  - intros sf ->. reflexivity.
  - intros ->. reflexivity.
  - intros [-> | ->]; reflexivity.
  - intros ->. reflexivity.
  - intros ->. reflexivity.
Qed.

Lemma C3_last_detection_wins_where_written_witness :
  metrics_complete dot_selectors major_detection = true
  /\ gauge (deliver_all dot_selectors loaded_page
              (map new_detection ([overlap_only; empty_detection]
                                  ++ [major_detection])))
     = gauge_of major_detection.
Proof.
  split.
  - reflexivity.
  - exact (proj1 (proj2 (proj2 (proj2
             (C3_last_detection_wins_where_written dot_selectors loaded_page
                [overlap_only; empty_detection] major_detection eq_refl))))).
Defined.

(** C3 as stated fails: the same last event (a payload with no property)
    leaves the severity MAJOR and the factors 73, 0, 0 after a MAJOR
    detection, and the page's own values when it comes alone; the snapshot is
    not the last payload's. *)
Lemma C3_counterexample :
  let history := [new_detection major_detection; new_detection empty_detection] in
  let alone := [new_detection empty_detection] in
  severityText (indicator (deliver_all dot_selectors loaded_page history)) = "MAJOR"
  /\ factors (deliver_all dot_selectors loaded_page history)
     = {| factorOverlap := "73"; factorMotion := "0"; factorDebris := "0" |}
  /\ severityText (indicator (deliver_all dot_selectors loaded_page alone)) = "None"
  /\ severity empty_detection = Absent
  /\ severity_factors empty_detection = Absent.
Proof. vm_compute. repeat split. Qed.

(** * Further properties of the handlers *)

(** ** What a delivery leaves of the listener's page *)

Lemma deliver_timeline sv p ev :
  alertTimeline (deliver sv p ev) = alertTimeline (snd (listener sv ev p)).
Proof.
  unfold deliver. destruct (listener sv ev p) as [[u | e] p']; reflexivity.
Qed.

Lemma deliver_snapshot sv p ev :
  snapshot (deliver sv p ev) = snapshot (snd (listener sv ev p)).
Proof.
  unfold deliver. destruct (listener sv ev p) as [[u | e] p']; reflexivity.
Qed.

Lemma deliver_aggregate sv p ev :
  aggregate (deliver sv p ev) = aggregate (snd (listener sv ev p)).
Proof.
  unfold deliver. destruct (listener sv ev p) as [[u | e] p']; reflexivity.
Qed.

Lemma deliver_connection sv p ev :
  connection (deliver sv p ev) = connection (snd (listener sv ev p)).
Proof.
  unfold deliver. destruct (listener sv ev p) as [[u | e] p']; reflexivity.
Qed.

Lemma addToTimeline_skips data time p :
  alertTimeline p = None -> addToTimeline data time p = (Returned tt, p).
Proof.
  intros Hn. unfold addToTimeline, bind, read. rewrite Hn. reflexivity.
Qed.

Lemma updateStats_timeline data p :
  alertTimeline (snd (updateStats data p)) = alertTimeline p.
Proof.
  unfold updateStats, bind, modify, read, ret. simpl.
  destruct (severityChart p); [destruct (severity_counts data) |]; reflexivity.
Qed.

(** An event leaves the timeline alone or puts one item in front of it. *)
Lemma deliver_timeline_step sv p ev :
  alertTimeline (deliver sv p ev) = alertTimeline p
  \/ exists nodes item,
       alertTimeline p = Some nodes
       /\ alertTimeline (deliver sv p ev) = Some (timeline_after item nodes).
Proof.
  rewrite deliver_timeline.
  destruct ev as [| |data time|data|data]; cbn [listener].
  - left. reflexivity.
  - left. reflexivity.
  - destruct (alertTimeline p) as [nodes|] eqn:Hn.
    + destruct (severity data) as [| |s] eqn:Hs.
      * left. rewrite handleAccidentAlert_steps. unfold bind.
        rewrite <- (alert_notified_timeline data p) in Hn.
        destruct (addToTimeline_throws data time _ nodes Hn (or_introl Hs))
          as [e He].
        rewrite He. exact Hn.
      * left. rewrite handleAccidentAlert_steps. unfold bind.
        rewrite <- (alert_notified_timeline data p) in Hn.
        destruct (addToTimeline_throws data time _ nodes Hn (or_intror Hs))
          as [e He].
        rewrite He. exact Hn.
      * right. exists nodes. eexists. split; [reflexivity |].
        apply (handleAccidentAlert_timeline sv data time p nodes s Hn Hs).
    + left. rewrite handleAccidentAlert_steps. unfold bind.
      rewrite <- (alert_notified_timeline data p) in Hn.
      rewrite (addToTimeline_skips data time _ Hn).
      rewrite updateDetectionMetrics_timeline. exact Hn.
  - left. apply updateDetectionMetrics_timeline.
  - left. apply updateStats_timeline.
Qed.

(** ** The timeline and its stray nodes *)

Lemma items_strays_length nodes :
  (items nodes + strays nodes = List.length nodes)%nat.
Proof.
  unfold items, strays, children.
  induction nodes as [|n nodes IH]; simpl; [reflexivity |].
  destruct (is_element n); simpl; lia.
Qed.

Lemma strays_removelast nodes :
  (strays (removelast nodes) <= strays nodes)%nat.
Proof.
  unfold strays.
  induction nodes as [|n nodes IH]; [simpl; lia |].
  destruct nodes as [|n' nodes'].
  - simpl. lia.
  - change (removelast (n :: n' :: nodes')) with (n :: removelast (n' :: nodes')).
    cbn [filter]. destruct (negb (is_element n)); simpl in *; lia.
Qed.

Lemma length_removelast_cons {A : Type} (a : A) l :
  List.length (removelast (a :: l)) = List.length l.
Proof.
  revert a. induction l as [|b l IH]; intros a; [reflexivity |].
  change (removelast (a :: b :: l)) with (a :: removelast (b :: l)).
  cbn [List.length]. rewrite IH. reflexivity.
Qed.

(** One insertion keeps "at most [10 + k] nodes, at most [k] of them
    strays". *)
Lemma timeline_after_bound item nodes k :
  (strays nodes <= k)%nat ->
  (List.length nodes <= 10 + k)%nat ->
  (strays (timeline_after item nodes) <= k)%nat
  /\ (List.length (timeline_after item nodes) <= 10 + k)%nat.
Proof.
  intros Hs Hl. unfold timeline_after.
  assert (Hi : List.length (children (Element item :: nodes)) = S (items nodes))
    by reflexivity.
  rewrite Hi.
  pose proof (items_strays_length nodes) as Hsum.
  destruct (Nat.ltb_spec 10 (S (items nodes))) as [H | H].
  - split.
    + pose proof (strays_removelast (Element item :: nodes)) as Hr.
      change (strays (Element item :: nodes)) with (strays nodes) in Hr. lia.
    + rewrite length_removelast_cons. exact Hl.
  - split.
    + exact Hs.
    + simpl. lia.
Qed.

(** X1: on a page whose timeline starts with at most ten items and [k]
    other child nodes, no run of events ever leaves more than [10 + k]
    items; with no stray node the limit of ten holds, and the stray nodes
    never grow in number. *)
Theorem timeline_items_bounded_by_strays sv p nodes evs :
  alertTimeline p = Some nodes ->
  (items nodes <= 10)%nat ->
  exists nodes',
    alertTimeline (deliver_all sv p evs) = Some nodes'
    /\ (items nodes' + strays nodes' <= 10 + strays nodes)%nat
    /\ (strays nodes' <= strays nodes)%nat.
Proof.
  intros Hn Hi.
  assert (Hgen : forall evs p nodes k,
             alertTimeline p = Some nodes ->
             (strays nodes <= k)%nat ->
             (List.length nodes <= 10 + k)%nat ->
             exists nodes',
               alertTimeline (deliver_all sv p evs) = Some nodes'
               /\ (strays nodes' <= k)%nat
               /\ (List.length nodes' <= 10 + k)%nat).
  { clear. induction evs as [|ev evs IH]; intros p nodes k Hn Hs Hl.
    - exists nodes. auto.
    - cbn [deliver_all fold_left].
      destruct (deliver_timeline_step sv p ev) as [Hsame | [ns [item [Hp Hstep]]]].
      + rewrite Hn in Hsame. apply (IH _ nodes k Hsame Hs Hl).
      + rewrite Hn in Hp. injection Hp as <-.
        destruct (timeline_after_bound item nodes k Hs Hl) as [Hs' Hl'].
        apply (IH _ _ k Hstep Hs' Hl'). }
  pose proof (items_strays_length nodes) as Hsum.
  destruct (Hgen evs p nodes (strays nodes) Hn (Nat.le_refl _)) as [nodes' [Ht [Hs Hl]]].
  - lia.
  - exists nodes'. rewrite (items_strays_length nodes'). auto.
Qed.

Lemma timeline_items_bounded_by_strays_witness :
  exists nodes',
    alertTimeline (deliver_all dot_selectors cluttered_page
                     (map alert_event twelve_alerts)) = Some nodes'
    /\ (items nodes' + strays nodes' <= 10 + 2)%nat
    /\ (strays nodes' <= 2)%nat.
Proof.
  apply (timeline_items_bounded_by_strays dot_selectors cluttered_page _
           (map alert_event twelve_alerts) eq_refl).
  vm_compute. repeat constructor.
Defined.

(** ** Clearing the history *)

Lemma clearHistory_ok_clears p nodes :
  alertTimeline p = Some nodes ->
  clearHistory_ok p
  = (Returned tt,
     with_toastContainer
       (fun ts => (ts ++ [ {| toastType := "success";
                              toastIcon := Js.Str "fa-check-circle";
                              toastTitle := "SUCCESS";
                              toastMessage := "History cleared" |} ])%list)
       (with_alertTimeline (Some []) p)).
Proof.
  intros Hn. unfold clearHistory_ok, bind, read, modify, showToast.
  rewrite Hn. reflexivity.
Qed.

(** X2: once [clearHistory] has gone through (confirmed, response ok) on a
    page with a timeline, whatever that timeline held, delivering alerts
    that carry a severity leaves exactly the ten most recent of them, newest
    first, or all of them when there are fewer than ten. *)
Theorem clearHistory_then_alerts sv p nodes alerts :
  alertTimeline p = Some nodes ->
  forallb (fun a => carries_severity (fst a)) alerts = true ->
  let cleared := snd (clearHistory true (Responded true) p) in
  let newest_first := rev (map alert_item alerts) in
  alertTimeline cleared = Some []
  /\ alertTimeline (deliver_all sv cleared (map alert_event alerts))
     = Some (map Element (firstn 10 newest_first))
  /\ List.length (firstn 10 newest_first) = Nat.min 10 (List.length alerts).
Proof.
  intros Hn Hsev cleared newest_first.
  assert (Hc : alertTimeline cleared = Some []).
  { subst cleared. unfold clearHistory. cbn [negb].
    rewrite (clearHistory_ok_clears p nodes Hn). reflexivity. }
  refine (conj Hc (conj _ _)).
  - rewrite (deliver_all_alerts_timeline sv alerts cleared [] Hc eq_refl
               (Nat.le_0_l 10) Hsev).
    rewrite app_nil_r, firstn_map. reflexivity.
  - rewrite length_firstn. unfold newest_first.
    rewrite length_rev, length_map. reflexivity.
Qed.

Lemma clearHistory_then_alerts_witness :
  alertTimeline
    (deliver_all dot_selectors
       (snd (clearHistory true (Responded true) cluttered_page))
       (map alert_event twelve_alerts))
  = Some (map Element (firstn 10 (rev (map alert_item twelve_alerts)))).
Proof.
  exact (proj1 (proj2 (clearHistory_then_alerts dot_selectors cluttered_page _
                         twelve_alerts eq_refl eq_refl))).
Defined.

(** X3: [clearHistory] never throws, and it changes the page in one case
    only: the user confirmed, the response was ok and [#alertTimeline]
    exists.  Then the timeline is emptied and one success toast is added;
    a refusal, a rejected fetch, a response that is not ok and a missing
    timeline all leave the page as it was. *)
Theorem clearHistory_guards confirmed outcome p :
  fst (clearHistory confirmed outcome p) = Returned tt
  /\ (confirmed = false \/ outcome = Rejected \/ outcome = Responded false
      \/ alertTimeline p = None ->
      snd (clearHistory confirmed outcome p) = p)
  /\ (forall nodes,
        confirmed = true -> outcome = Responded true ->
        alertTimeline p = Some nodes ->
        let p' := snd (clearHistory confirmed outcome p) in
        alertTimeline p' = Some []
        /\ List.length (toastContainer p') = S (List.length (toastContainer p))
        /\ snapshot p' = snapshot p
        /\ aggregate p' = aggregate p
        /\ audioPlayed p' = audioPlayed p
        /\ confettiBursts p' = confettiBursts p
        /\ connection p' = connection p).
Proof.
  refine (conj _ (conj _ _)).
  - unfold clearHistory, clearHistory_ok, bind, read, modify, showToast, ret.
    destruct confirmed; [| reflexivity].
    destruct outcome as [|[|]]; try reflexivity.
    cbn [negb]. destruct (alertTimeline p); reflexivity.
  - unfold clearHistory, clearHistory_ok, bind, read, modify, showToast, ret.
    intros [-> | [-> | [-> | Hn]]].
    + reflexivity.
    + destruct confirmed; reflexivity.
    + destruct confirmed; reflexivity.
    + destruct confirmed; [| reflexivity].
      destruct outcome as [|[|]]; try reflexivity.
      cbn [negb]. rewrite Hn. reflexivity.
  - intros nodes -> -> Hn p'. subst p'. unfold clearHistory. cbn [negb].
    rewrite (clearHistory_ok_clears p nodes Hn). cbn [snd].
    refine (conj eq_refl (conj _ (conj eq_refl (conj eq_refl
             (conj eq_refl (conj eq_refl eq_refl)))))).
    cbn [toastContainer with_toastContainer with_alertTimeline].
    rewrite length_app. simpl. lia.
Qed.

Lemma clearHistory_guards_witness :
  alertTimeline
    (snd (clearHistory true (Responded true) cluttered_page)) = Some []
  /\ snd (clearHistory true (Responded false) cluttered_page) = cluttered_page.
Proof.
  split.
  - exact (proj1 (proj2 (proj2 (clearHistory_guards true (Responded true)
                                  cluttered_page))
                    _ eq_refl eq_refl eq_refl)).
  - exact (proj1 (proj2 (clearHistory_guards true (Responded false)
                           cluttered_page))
             (or_intror (or_intror (or_introl eq_refl)))).
Defined.

(** ** The page an alert leaves *)

Lemma alert_notified_fields data p :
  snapshot (alert_notified data p) = snapshot p
  /\ aggregate (alert_notified data p) = aggregate p
  /\ connection (alert_notified data p) = connection p
  /\ toastContainer (alert_notified data p)
     = (toastContainer p ++ [alert_toast data])%list
  /\ audioPlayed (alert_notified data p)
     = (audioPlayed p ++ [alert_source (severity data)])%list
  /\ confettiBursts (alert_notified data p)
     = (confettiBursts p
        + if Js.strict_eq (severity data) "CRITICAL" then 1 else 0)%nat.
Proof.
  unfold alert_notified, bind, showToast, playAlertSound, triggerConfetti,
    when, modify, ret.
  destruct (Js.strict_eq (severity data) "CRITICAL"); cbn [snd];
    refine (conj eq_refl (conj eq_refl (conj eq_refl (conj eq_refl
             (conj eq_refl _)))));
    cbn [confettiBursts with_audioPlayed with_confettiBursts
         with_toastContainer]; lia.
Qed.

(** [handleAccidentAlert] in three steps: notify, record, update. *)
Lemma handleAccidentAlert_page sv data time p :
  handleAccidentAlert sv data time p
  = if timeline_rejects data p
    then (Thrown (TypeError "Cannot read properties of undefined (reading 'toLowerCase')"),
          alert_notified data p)
    else updateDetectionMetrics sv data (alert_recorded data time p).
Proof.
  rewrite handleAccidentAlert_steps. unfold bind, timeline_rejects, alert_recorded.
  pose proof (alert_notified_timeline data p) as Ht.
  destruct (alertTimeline p) as [nodes|] eqn:Hn.
  - unfold carries_severity.
    destruct (severity data) as [| |s] eqn:Hs; cbn [negb].
    + unfold addToTimeline, bind, read, toLowerCase_of, throw.
      rewrite Ht, Hs. reflexivity.
    + unfold addToTimeline, bind, read, toLowerCase_of, throw.
      rewrite Ht, Hs. reflexivity.
    + rewrite (addToTimeline_inserts data time _ nodes s Ht Hs). reflexivity.
  - rewrite (addToTimeline_skips data time _ Ht). reflexivity.
Qed.

Lemma alert_recorded_fields data time p :
  snapshot (alert_recorded data time p) = snapshot p
  /\ aggregate (alert_recorded data time p) = aggregate p
  /\ connection (alert_recorded data time p) = connection p
  /\ notifications (alert_recorded data time p)
     = notifications (alert_notified data p).
Proof.
  destruct (alert_notified_fields data p) as [Hs [Ha [Hc _]]].
  unfold alert_recorded.
  destruct (alertTimeline p); [destruct (severity data) |]; auto.
Qed.

Lemma updateDetectionMetrics_fields sv data p :
  aggregate (snd (updateDetectionMetrics sv data p)) = aggregate p
  /\ connection (snd (updateDetectionMetrics sv data p)) = connection p
  /\ notifications (snd (updateDetectionMetrics sv data p)) = notifications p.
Proof.
  destruct (updateDetectionMetrics_cases sv data p) as [H | H];
    rewrite H; auto.
Qed.

(** The detection widgets after [updateDetectionMetrics] depend on the page
    through its detection widgets only. *)
Lemma updateDetectionMetrics_snapshot sv data p q :
  snapshot p = snapshot q ->
  snapshot (snd (updateDetectionMetrics sv data p))
  = snapshot (snd (updateDetectionMetrics sv data q)).
Proof.
  intros H. unfold snapshot in H. injection H as Hb Hi Hg Hv Hf.
  destruct (metrics_complete sv data) eqn:Hc.
  - rewrite !(updateDetectionMetrics_run sv data _ Hc).
    unfold snapshot, metrics_written. cbn. rewrite Hb, Hi, Hf. reflexivity.
  - destruct (updateDetectionMetrics_throws sv data p Hc) as [e ->].
    destruct (updateDetectionMetrics_throws sv data q Hc) as [e' ->].
    unfold snapshot, metrics_interrupted. cbn. rewrite Hb, Hg, Hv, Hf.
    reflexivity.
Qed.

(** X4: the listener of an event returns exactly when [listener_returns]
    says so: always for [connect], [disconnect] and [stats_update]; for
    [new_detection] when the severity is falsy or its selector parses; for
    [accident_alert] when, besides, the page has no timeline or the payload
    has a severity string.  A delivery adds the error toast of
    [window.onerror], last, exactly in the other cases. *)
Theorem listener_returns_iff sv ev p :
  (fst (listener sv ev p) = Returned tt <-> listener_returns sv ev p = true)
  /\ toastContainer (deliver sv p ev)
     = (toastContainer (snd (listener sv ev p))
        ++ if listener_returns sv ev p then [] else [error_toast])%list.
Proof.
  assert (Hfst : fst (listener sv ev p) = Returned tt
                 <-> listener_returns sv ev p = true).
  { destruct ev as [| |data time|data|data]; cbn [listener listener_returns].
    - split; reflexivity.
    - split; reflexivity.
    - rewrite handleAccidentAlert_page. unfold alert_returns, timeline_rejects.
      destruct (alertTimeline p) as [nodes|].
      + destruct (carries_severity data); cbn [negb andb].
        * destruct (metrics_complete sv data) eqn:Hc.
          -- rewrite (updateDetectionMetrics_run sv data _ Hc). split; reflexivity.
          -- destruct (updateDetectionMetrics_throws sv data
                         (alert_recorded data time p) Hc) as [e ->].
             split; discriminate.
        * split; discriminate.
      + cbn [andb]. destruct (metrics_complete sv data) eqn:Hc.
        * rewrite (updateDetectionMetrics_run sv data _ Hc). split; reflexivity.
        * destruct (updateDetectionMetrics_throws sv data
                      (alert_recorded data time p) Hc) as [e ->].
          split; discriminate.
    - destruct (metrics_complete sv data) eqn:Hc.
      + rewrite (updateDetectionMetrics_run sv data _ Hc). split; reflexivity.
      + destruct (updateDetectionMetrics_throws sv data p Hc) as [e ->].
        split; discriminate.
    - rewrite updateStats_returns. split; reflexivity. }
  split; [exact Hfst |].
  unfold deliver.
  destruct (listener sv ev p) as [[[] | e] p'] eqn:Hl; cbn [fst snd] in *.
  - rewrite (proj1 Hfst eq_refl), app_nil_r. reflexivity.
  - destruct (listener_returns sv ev p).
    + destruct Hfst as [_ H]. discriminate (H eq_refl).
    + reflexivity.
Qed.

(** X5: every alert, recorded or not, shows its warning toast, plays one
    sound and fires the confetti exactly when its severity is the string
    CRITICAL; besides the timeline and the detection widgets the handler
    writes nothing else. *)
Theorem alert_always_notifies sv data time p :
  let p' := snd (handleAccidentAlert sv data time p) in
  toastContainer p' = (toastContainer p ++ [alert_toast data])%list
  /\ audioPlayed p' = (audioPlayed p ++ [alert_source (severity data)])%list
  /\ confettiBursts p'
     = (confettiBursts p
        + if Js.strict_eq (severity data) "CRITICAL" then 1 else 0)%nat
  /\ aggregate p' = aggregate p
  /\ connection p' = connection p.
Proof.
  intros p'. subst p'. rewrite handleAccidentAlert_page.
  destruct (alert_notified_fields data p) as [_ [Ha [Hc [Ht [Hs Hf]]]]].
  destruct (timeline_rejects data p); cbn [snd].
  - auto.
  - destruct (updateDetectionMetrics_fields sv data (alert_recorded data time p))
      as [Ha' [Hc' Hn']].
    destruct (alert_recorded_fields data time p) as [_ [Ha'' [Hc'' Hn'']]].
    rewrite Hn'' in Hn'. unfold notifications in Hn'.
    injection Hn' as Ht' Hs' Hf'.
    rewrite Ht', Hs', Hf', Ha', Hc', Ha'', Hc''. auto.
Qed.

(** X6: unless [addToTimeline] rejects it, an alert leaves the detection
    widgets exactly as a [new_detection] with the same payload would. *)
Theorem alert_updates_like_detection sv data time p :
  timeline_rejects data p = false ->
  snapshot (deliver sv p (accident_alert data time))
  = snapshot (deliver sv p (new_detection data)).
Proof.
  intros Hr. rewrite !deliver_snapshot. cbn [listener].
  rewrite handleAccidentAlert_page, Hr.
  apply updateDetectionMetrics_snapshot.
  apply (proj1 (alert_recorded_fields data time p)).
Qed.

Lemma alert_updates_like_detection_witness :
  snapshot (deliver dot_selectors loaded_page
              (accident_alert major_detection "10:15:00"))
  = snapshot (deliver dot_selectors loaded_page (new_detection major_detection)).
Proof.
  exact (alert_updates_like_detection dot_selectors major_detection "10:15:00"
           loaded_page eq_refl).
Defined.

(** ** Sounds and icons *)

Lemma own_sound key v : Js.own_property sounds key = Some v -> v = alert_wav.
Proof.
  unfold sounds. cbn [Js.own_property].
  destruct (String.eqb "MINOR" key); [intros H; injection H as <-; reflexivity |].
  destruct (String.eqb "MAJOR" key); [intros H; injection H as <-; reflexivity |].
  destruct (String.eqb "CRITICAL" key); [intros H; injection H as <-; reflexivity |].
  discriminate.
Qed.

Lemma alert_wav_truthy : Js.truthy (Js.Str alert_wav) = true.
Proof. vm_compute. reflexivity. Qed.

Lemma major_sound : Js.get sounds "MAJOR" = Js.Str alert_wav.
Proof. vm_compute. reflexivity. Qed.

Lemma get_sound key :
  Js.get sounds key = Js.Str alert_wav
  \/ (Js.get sounds key = Js.Inherited key
      /\ existsb (String.eqb key) Js.object_prototype_keys = true)
  \/ (Js.get sounds key = Js.Undefined
      /\ existsb (String.eqb key) Js.object_prototype_keys = false).
Proof.
  unfold Js.get.
  destruct (Js.own_property sounds key) as [v|] eqn:Hown.
  - left. rewrite (own_sound _ _ Hown). reflexivity.
  - destruct (existsb (String.eqb key) Js.object_prototype_keys); auto.
Qed.

(** X7: [playAlertSound] always finds a source to play, and the severity does
    not choose it: whatever the severity (unknown, absent and [null]
    included), unless its string form names a member of [Object.prototype],
    the one recording shared by the three entries of [sounds] is played. *)
Theorem alert_sound_ignores_severity severity p :
  audioPlayed (snd (playAlertSound severity p))
  = (audioPlayed p ++ [alert_source severity])%list
  /\ Js.truthy (alert_source severity) = true
  /\ (plain_key severity = true -> alert_source severity = Js.Str alert_wav).
Proof.
  refine (conj eq_refl _).
  unfold alert_source, plain_key, Js.or. rewrite major_sound.
  destruct (get_sound (Js.toString severity)) as [-> | [[-> ->] | [-> ->]]].
  - rewrite alert_wav_truthy. split; [exact alert_wav_truthy | reflexivity].
  - cbn [Js.truthy negb]. split; [reflexivity | discriminate].
  - cbn [Js.truthy]. split; [exact alert_wav_truthy | reflexivity].
Qed.

Lemma alert_sound_ignores_severity_witness :
  plain_key (Val "SEVERE") = true
  /\ alert_source (Val "SEVERE") = Js.Str alert_wav.
Proof.
  split.
  - reflexivity.
  - exact (proj2 (proj2 (alert_sound_ignores_severity (Val "SEVERE") loaded_page))
             eq_refl).
Defined.

Lemma own_icon key v :
  Js.own_property severity_icons key = Some v ->
  In key known_severities /\ negb (String.eqb v "") = true.
Proof.
  unfold severity_icons, known_severities. cbn [Js.own_property].
  destruct (String.eqb_spec "MINOR" key) as [<- |];
    [intros H; injection H as <-; simpl; auto |].
  destruct (String.eqb_spec "MAJOR" key) as [<- |];
    [intros H; injection H as <-; simpl; auto |].
  destruct (String.eqb_spec "CRITICAL" key) as [<- |];
    [intros H; injection H as <-; simpl; auto |].
  discriminate.
Qed.

(** X8: [getSeverityIcon] never yields a falsy value, so an item never shows
    [undefined] as its icon; and the lookup is by the exact string: a severity
    that is not literally MINOR, MAJOR or CRITICAL (absent and [null]
    included) gets the fallback icon, unless its string form names a member
    of [Object.prototype]. *)
Theorem severity_icon_total severity :
  Js.truthy (getSeverityIcon severity) = true
  /\ (~ In (Js.toString severity) known_severities ->
      plain_key severity = true ->
      getSeverityIcon severity = fallback_icon).
Proof.
  unfold getSeverityIcon, plain_key, fallback_icon, Js.or, Js.get.
  destruct (Js.own_property severity_icons (Js.toString severity)) as [v|] eqn:Hown.
  - destruct (own_icon _ _ Hown) as [Hin Hv].
    cbn [Js.truthy]. rewrite Hv. split; [exact Hv | intros Hn; contradiction].
  - destruct (existsb (String.eqb (Js.toString severity)) Js.object_prototype_keys).
    + cbn [Js.truthy negb]. split; [reflexivity | discriminate].
    + cbn [Js.truthy]. split; reflexivity.
Qed.

Lemma severity_icon_total_witness :
  ~ In (Js.toString (Val "minor")) known_severities
  /\ plain_key (Val "minor") = true
  /\ getSeverityIcon (Val "minor") = fallback_icon.
Proof.
  assert (Hn : ~ In (Js.toString (Val "minor")) known_severities).
  { simpl. intros [H | [H | [H | []]]]; discriminate H. }
  refine (conj Hn (conj eq_refl _)).
  exact (proj2 (severity_icon_total (Val "minor")) Hn eq_refl).
Defined.

(** ** Each widget group has its own events *)

Lemma handleAccidentAlert_timeline_step sv data time p :
  alertTimeline (snd (handleAccidentAlert sv data time p))
  = timeline_step data time (alertTimeline p).
Proof.
  rewrite handleAccidentAlert_page.
  pose proof (alert_notified_timeline data p) as Ht.
  unfold timeline_rejects, timeline_step, alert_recorded, carries_severity.
  destruct (alertTimeline p) as [nodes|];
    [destruct (severity data) as [| |s] |]; cbn [negb snd];
    try exact Ht; rewrite updateDetectionMetrics_timeline;
    try exact Ht; reflexivity.
Qed.

Lemma handleAccidentAlert_snapshot sv data time p :
  snapshot (snd (handleAccidentAlert sv data time p))
  = if timeline_rejects data p
    then snapshot p
    else snapshot (snd (updateDetectionMetrics sv data p)).
Proof.
  rewrite handleAccidentAlert_page.
  destruct (timeline_rejects data p); cbn [snd].
  - apply (proj1 (alert_notified_fields data p)).
  - apply updateDetectionMetrics_snapshot.
    apply (proj1 (alert_recorded_fields data time p)).
Qed.

Lemma handleAccidentAlert_outside sv data time p :
  aggregate (snd (handleAccidentAlert sv data time p)) = aggregate p
  /\ connection (snd (handleAccidentAlert sv data time p)) = connection p.
Proof.
  rewrite handleAccidentAlert_page.
  destruct (alert_notified_fields data p) as [_ [Ha [Hc _]]].
  destruct (timeline_rejects data p); cbn [snd]; [auto |].
  destruct (updateDetectionMetrics_fields sv data (alert_recorded data time p))
    as [Ha' [Hc' _]].
  destruct (alert_recorded_fields data time p) as [_ [Ha'' [Hc'' _]]].
  rewrite Ha', Hc', Ha'', Hc''. auto.
Qed.

Lemma updateStats_outside data p :
  snapshot (snd (updateStats data p)) = snapshot p
  /\ connection (snd (updateStats data p)) = connection p
  /\ notifications (snd (updateStats data p)) = notifications p.
Proof.
  unfold updateStats, bind, modify, read, ret. simpl.
  destruct (severityChart p); [destruct (severity_counts data) |]; auto.
Qed.

Lemma updateStats_aggregate data p q :
  aggregate p = aggregate q ->
  aggregate (snd (updateStats data p)) = aggregate (snd (updateStats data q)).
Proof.
  unfold aggregate. intros H. injection H as _ Hch.
  unfold updateStats, bind, modify, read, ret. simpl. rewrite Hch.
  destruct (severityChart q) eqn:Hq; [destruct (severity_counts data) |];
    cbn; rewrite ?Hch, ?Hq; reflexivity.
Qed.

(** What an event of another kind leaves alone. *)
Lemma deliver_outside sv p ev :
  (is_detection ev = false -> snapshot (deliver sv p ev) = snapshot p)
  /\ (is_stats ev = false -> aggregate (deliver sv p ev) = aggregate p)
  /\ (is_connection ev = false -> connection (deliver sv p ev) = connection p)
  /\ (is_alert ev = false -> alertTimeline (deliver sv p ev) = alertTimeline p).
Proof.
  rewrite deliver_snapshot, deliver_aggregate, deliver_connection,
    deliver_timeline.
  destruct ev as [| |data time|data|data]; cbn [listener is_detection is_stats
                                                is_connection is_alert].
  - refine (conj _ (conj _ (conj _ _))); try discriminate; reflexivity.
  - refine (conj _ (conj _ (conj _ _))); try discriminate; reflexivity.
  - destruct (handleAccidentAlert_outside sv data time p) as [Ha Hc].
    refine (conj _ (conj _ (conj _ _))); try discriminate; auto.
  - destruct (updateDetectionMetrics_fields sv data p) as [Ha [Hc _]].
    refine (conj _ (conj _ (conj _ _))); try discriminate; auto.
    intros _. apply updateDetectionMetrics_timeline.
  - destruct (updateStats_outside data p) as [Hs [Hc _]].
    refine (conj _ (conj _ (conj _ _))); try discriminate; auto.
    intros _. apply updateStats_timeline.
Qed.

Lemma deliver_has_timeline sv p ev :
  has_timeline (deliver sv p ev) = has_timeline p.
Proof.
  unfold has_timeline.
  destruct (deliver_timeline_step sv p ev) as [-> | [nodes [item [-> ->]]]];
    reflexivity.
Qed.

(** Dropping the events a relation does not care about. *)
Lemma deliver_all_filter sv (touches : Event -> bool)
      (sim : Page -> Page -> Prop) :
  (forall p q ev, sim p q -> touches ev = true ->
                  sim (deliver sv p ev) (deliver sv q ev)) ->
  (forall p q ev, sim p q -> touches ev = false -> sim (deliver sv p ev) q) ->
  forall evs p q,
    sim p q ->
    sim (deliver_all sv p evs) (deliver_all sv q (filter touches evs)).
Proof.
  intros Hin Hout. induction evs as [|ev evs IH]; intros p q Hs.
  - exact Hs.
  - cbn [filter deliver_all fold_left].
    destruct (touches ev) eqn:Ht.
    + cbn [fold_left]. apply IH. apply Hin; assumption.
    + apply IH. apply Hout; assumption.
Qed.

(** X9: in any run of events each widget group is written by its own events
    only.  The detection widgets are what the detection events alone would
    leave, the aggregate widgets what the stats updates alone would leave,
    the connection badge what the connection events alone would leave, and
    the timeline what the alerts alone would leave. *)
Theorem widget_groups_are_isolated sv p evs :
  snapshot (deliver_all sv p evs)
  = snapshot (deliver_all sv p (filter is_detection evs))
  /\ aggregate (deliver_all sv p evs)
     = aggregate (deliver_all sv p (filter is_stats evs))
  /\ connection (deliver_all sv p evs)
     = connection (deliver_all sv p (filter is_connection evs))
  /\ alertTimeline (deliver_all sv p evs)
     = alertTimeline (deliver_all sv p (filter is_alert evs)).
Proof.
  refine (conj _ (conj _ (conj _ _))).
  - apply (deliver_all_filter sv is_detection
             (fun a b => snapshot a = snapshot b
                         /\ has_timeline a = has_timeline b));
      [| | split; reflexivity].
    + intros a b ev [Hs Ht] Hev.
      rewrite !deliver_has_timeline. split; [| exact Ht].
      rewrite !deliver_snapshot.
      destruct ev as [| |data time|data|data]; try discriminate Hev;
        cbn [listener].
      * rewrite !handleAccidentAlert_snapshot.
        assert (Hr : timeline_rejects data a = timeline_rejects data b).
        { unfold timeline_rejects. unfold has_timeline in Ht.
          destruct (alertTimeline a), (alertTimeline b);
            try discriminate Ht; reflexivity. }
        rewrite Hr. destruct (timeline_rejects data b); [exact Hs |].
        apply updateDetectionMetrics_snapshot. exact Hs.
      * apply updateDetectionMetrics_snapshot. exact Hs.
    + intros a b ev [Hs Ht] Hev.
      rewrite deliver_has_timeline. split; [| exact Ht].
      rewrite (proj1 (deliver_outside sv a ev) Hev). exact Hs.
  - apply (deliver_all_filter sv is_stats (fun a b => aggregate a = aggregate b));
      [| | reflexivity].
    + intros a b ev Hs Hev. rewrite !deliver_aggregate.
      destruct ev as [| |data time|data|data]; try discriminate Hev.
      cbn [listener]. apply updateStats_aggregate. exact Hs.
    + intros a b ev Hs Hev.
      rewrite (proj1 (proj2 (deliver_outside sv a ev)) Hev). exact Hs.
  - apply (deliver_all_filter sv is_connection
             (fun a b => connection a = connection b)); [| | reflexivity].
    + intros a b ev Hs Hev. rewrite !deliver_connection.
      destruct ev as [| |data time|data|data]; try discriminate Hev;
        reflexivity.
    + intros a b ev Hs Hev.
      rewrite (proj1 (proj2 (proj2 (deliver_outside sv a ev))) Hev). exact Hs.
  - apply (deliver_all_filter sv is_alert
             (fun a b => alertTimeline a = alertTimeline b)); [| | reflexivity].
    + intros a b ev Hs Hev. rewrite !deliver_timeline.
      destruct ev as [| |data time|data|data]; try discriminate Hev.
      cbn [listener]. rewrite !handleAccidentAlert_timeline_step, Hs.
      reflexivity.
    + intros a b ev Hs Hev.
      rewrite (proj2 (proj2 (proj2 (deliver_outside sv a ev))) Hev). exact Hs.
Qed.

(** ** The connection badge *)

Lemma deliver_connection_event sv p ev :
  connection (deliver sv p ev)
  = match ev with
    | connect => badge_of true
    | disconnect => badge_of false
    | _ => connection p
    end.
Proof.
  destruct ev as [| |data time|data|data];
    try (rewrite deliver_connection; reflexivity);
    apply (proj1 (proj2 (proj2 (deliver_outside sv p _)))); reflexivity.
Qed.

Lemma connection_events_outside sv evs : forall p,
  forallb is_connection evs = true ->
  snapshot (deliver_all sv p evs) = snapshot p
  /\ aggregate (deliver_all sv p evs) = aggregate p
  /\ alertTimeline (deliver_all sv p evs) = alertTimeline p.
Proof.
  induction evs as [|ev evs IH]; intros p Hall; [auto |].
  cbn [forallb] in Hall. apply andb_true_iff in Hall. destruct Hall as [Hev Hrest].
  cbn [deliver_all fold_left].
  destruct (IH (deliver sv p ev) Hrest) as [Hs [Ha Ht]].
  unfold deliver_all in *. rewrite Hs, Ha, Ht.
  destruct (deliver_outside sv p ev) as [Hs' [Ha' [_ Ht']]].
  destruct ev; try discriminate Hev; auto.
Qed.

(** X10: after any run of events the connection badge is the one of the last
    [connect] or [disconnect] in the run (the page's own when there is none),
    so it carries exactly one of the classes [connected] and [disconnected];
    and a run of connection events alone, a disconnect followed by a
    reconnect for one, leaves the detection widgets, the aggregate widgets
    and the timeline as they were. *)
Theorem connection_badge_follows_last_event sv p evs :
  connection (deliver_all sv p evs)
  = match last_connection evs with
    | Some c => badge_of c
    | None => connection p
    end
  /\ (last_connection evs <> None ->
      dotConnected (connection (deliver_all sv p evs))
      = negb (dotDisconnected (connection (deliver_all sv p evs))))
  /\ (forallb is_connection evs = true ->
      snapshot (deliver_all sv p evs) = snapshot p
      /\ aggregate (deliver_all sv p evs) = aggregate p
      /\ alertTimeline (deliver_all sv p evs) = alertTimeline p).
Proof.
  assert (Hlast : forall evs p,
             connection (deliver_all sv p evs)
             = match last_connection evs with
               | Some c => badge_of c
               | None => connection p
               end).
  { clear. induction evs as [|ev evs IH]; intros p; [reflexivity |].
    cbn [deliver_all fold_left last_connection].
    unfold deliver_all in IH. rewrite IH.
    destruct (last_connection evs); [reflexivity |].
    rewrite deliver_connection_event. destruct ev; reflexivity. }
  refine (conj (Hlast evs p) (conj _ (connection_events_outside sv evs p))).
  intros Hsome. rewrite Hlast.
  destruct (last_connection evs) as [[|]|]; try reflexivity.
  contradiction.
Qed.

Lemma connection_badge_follows_last_event_witness :
  forallb is_connection [disconnect; connect] = true
  /\ snapshot (deliver_all dot_selectors loaded_page [disconnect; connect])
     = snapshot loaded_page
  /\ connection (deliver_all dot_selectors loaded_page [disconnect; connect])
     = badge_of true.
Proof.
  pose proof (connection_badge_follows_last_event dot_selectors loaded_page
                [disconnect; connect]) as H.
  refine (conj eq_refl (conj _ _)).
  - exact (proj1 (proj2 (proj2 H) eq_refl)).
  - exact (proj1 H).
Defined.

(** ** Counting notifications *)

Lemma handleAccidentAlert_notifications sv data time p :
  notifications (snd (handleAccidentAlert sv data time p))
  = notifications (alert_notified data p).
Proof.
  rewrite handleAccidentAlert_page.
  destruct (timeline_rejects data p); cbn [snd]; [reflexivity |].
  rewrite (proj2 (proj2 (updateDetectionMetrics_fields sv data _))).
  apply (proj2 (proj2 (proj2 (alert_recorded_fields data time p)))).
Qed.

(** The sounds, the confetti and the toasts of one delivery. *)
Lemma deliver_notifications sv p ev :
  audioPlayed (deliver sv p ev) = (audioPlayed p ++ sound_of ev)%list
  /\ confettiBursts (deliver sv p ev) = (confettiBursts p + bursts_of ev)%nat
  /\ exists added,
       toastContainer (deliver sv p ev) = (toastContainer p ++ added)%list
       /\ ((if announces ev then 1 else 0) <= List.length added)%nat.
Proof.
  assert (Hl : notifications (snd (listener sv ev p))
               = (toastContainer p
                    ++ match ev with
                       | connect =>
                           [ {| toastType := "success";
                                toastIcon := Js.Str "fa-check-circle";
                                toastTitle := "SUCCESS";
                                toastMessage := "Connected to server" |} ]
                       | disconnect =>
                           [ {| toastType := "error";
                                toastIcon := Js.Str "fa-times-circle";
                                toastTitle := "ERROR";
                                toastMessage := "Lost connection to server" |} ]
                       | accident_alert data _ => [alert_toast data]
                       | _ => []
                       end,
                  audioPlayed p ++ sound_of ev,
                  confettiBursts p + bursts_of ev)%list%nat).
  { destruct ev as [| |data time|data|data]; cbn [listener sound_of bursts_of].
    - unfold notifications. cbn. rewrite app_nil_r, Nat.add_0_r. reflexivity.
    - unfold notifications. cbn. rewrite app_nil_r, Nat.add_0_r. reflexivity.
    - rewrite handleAccidentAlert_notifications.
      destruct (alert_notified_fields data p) as [_ [_ [_ [Ht [Hs Hf]]]]].
      unfold notifications. rewrite Ht, Hs, Hf. reflexivity.
    - rewrite (proj2 (proj2 (updateDetectionMetrics_fields sv data p))).
      unfold notifications. rewrite !app_nil_r, Nat.add_0_r. reflexivity.
    - rewrite (proj2 (proj2 (updateStats_outside data p))).
      unfold notifications. rewrite !app_nil_r, Nat.add_0_r. reflexivity. }
  unfold notifications in Hl. injection Hl as Ht Hs Hf.
  unfold deliver.
  destruct (listener sv ev p) as [[u | e] p']; cbn [snd] in *.
  - refine (conj Hs (conj Hf _)). eexists. split; [exact Ht |].
    destruct ev; cbn; lia.
  - refine (conj Hs (conj Hf _)).
    unfold window_onerror, showToast, modify. cbn [snd toastContainer with_toastContainer].
    rewrite Ht, <- app_assoc. eexists. split; [reflexivity |].
    rewrite length_app. destruct ev; cbn; lia.
Qed.

Lemma removeToast_outside i p :
  snapshot (removeToast i p) = snapshot p
  /\ aggregate (removeToast i p) = aggregate p
  /\ connection (removeToast i p) = connection p
  /\ alertTimeline (removeToast i p) = alertTimeline p
  /\ audioPlayed (removeToast i p) = audioPlayed p
  /\ confettiBursts (removeToast i p) = confettiBursts p.
Proof.
  refine (conj _ (conj _ (conj _ (conj _ (conj _ _))))); reflexivity.
Qed.

(** X11: over any run of the event loop, socket events interleaved with
    toast removals (close button or timer), the sounds played are exactly one
    per alert, in order, and nothing else plays a sound; the confetti fires
    exactly once per alert whose severity is the string CRITICAL.  A toast
    removal changes the toast container only. *)
Theorem sounds_and_confetti_are_counted sv steps : forall p,
  audioPlayed (run sv p steps)
  = (audioPlayed p ++ flat_map sound_of_step steps)%list
  /\ confettiBursts (run sv p steps)
     = (confettiBursts p + total_bursts_of_steps steps)%nat
  /\ (forall i,
        snapshot (step sv p (toast_removed i)) = snapshot p
        /\ aggregate (step sv p (toast_removed i)) = aggregate p
        /\ connection (step sv p (toast_removed i)) = connection p
        /\ alertTimeline (step sv p (toast_removed i)) = alertTimeline p).
Proof.
  induction steps as [|s steps IH]; intros p.
  - cbn. rewrite app_nil_r, Nat.add_0_r.
    refine (conj eq_refl (conj eq_refl _)).
    intros i. refine (conj _ (conj _ (conj _ _))); reflexivity.
  - cbn [run fold_left flat_map total_bursts_of_steps].
    destruct (IH (step sv p s)) as [Hs [Hf _]].
    unfold run in *. rewrite Hs, Hf.
    assert (Hstep : audioPlayed (step sv p s)
                    = (audioPlayed p ++ sound_of_step s)%list
                    /\ confettiBursts (step sv p s)
                       = (confettiBursts p + bursts_of_step s)%nat).
    { destruct s as [ev | i]; cbn [step sound_of_step bursts_of_step].
      - destruct (deliver_notifications sv p ev) as [Ha [Hc _]]. auto.
      - destruct (removeToast_outside i p) as [_ [_ [_ [_ [Ha Hc]]]]].
        rewrite Ha, Hc, app_nil_r, Nat.add_0_r. auto. }
    destruct Hstep as [Ha Hc]. rewrite Ha, Hc, <- app_assoc.
    refine (conj eq_refl (conj _ _)); [lia |].
    intros i. refine (conj _ (conj _ (conj _ _))); reflexivity.
Qed.

(** ** Repeated events *)

(** A page is its five groups of widgets. *)
Lemma page_ext p q :
  snapshot p = snapshot q ->
  aggregate p = aggregate q ->
  connection p = connection q ->
  notifications p = notifications q ->
  alertTimeline p = alertTimeline q ->
  p = q.
Proof.
  destruct p, q. unfold snapshot, aggregate, notifications. cbn.
  intros Hs Ha Hc Hn Ht.
  injection Hs as -> -> -> -> ->. injection Ha as -> ->.
  injection Hn as -> -> ->. subst. reflexivity.
Qed.

Lemma metrics_written_snapshot data p :
  snapshot (metrics_written data p)
  = (banner_after data (banner p), indicator_after data (indicator p),
     gauge_of data, Js.num_or (vehicle_count data) 0%float,
     factors_after data (factors p)).
Proof. reflexivity. Qed.

Lemma metrics_written_twice data p :
  metrics_written data (metrics_written data p) = metrics_written data p.
Proof.
  apply page_ext; try reflexivity.
  rewrite (metrics_written_snapshot data (metrics_written data p)).
  rewrite (metrics_written_snapshot data p).
  change (banner (metrics_written data p)) with (banner_after data (banner p)).
  change (indicator (metrics_written data p))
    with (indicator_after data (indicator p)).
  change (factors (metrics_written data p))
    with (factors_after data (factors p)).
  assert (Hb : banner_after data (banner_after data (banner p))
               = banner_after data (banner p)).
  { unfold banner_after.
    destruct (Js.truthy_bool (accident_detected data)); reflexivity. }
  assert (Hi : indicator_after data (indicator_after data (indicator p))
               = indicator_after data (indicator p)).
  { unfold indicator_after. destruct (severity_selector data); reflexivity. }
  assert (Hf : factors_after data (factors_after data (factors p))
               = factors_after data (factors p)).
  { unfold factors_after. destruct (severity_factors data); reflexivity. }
  rewrite Hb, Hi, Hf. reflexivity.
Qed.

Lemma updateStats_twice data p :
  snd (updateStats data (snd (updateStats data p))) = snd (updateStats data p).
Proof.
  set (q := snd (updateStats data p)).
  destruct (updateStats_outside data q) as [Hs [Hc Hn]].
  apply page_ext; auto using updateStats_timeline.
  unfold aggregate. rewrite updateStats_counter.
  subst q. rewrite updateStats_counter. f_equal.
  destruct (severityChart p) as [ch|] eqn:Hp.
  - destruct (severity_counts data) as [| |c] eqn:Hd.
    + apply updateStats_chart_kept. auto.
    + apply updateStats_chart_kept. auto.
    + rewrite (updateStats_chart_written data p ch c Hp Hd).
      apply (updateStats_chart_written data _ _ c
               (updateStats_chart_written data p ch c Hp Hd) Hd).
  - apply updateStats_chart_kept. left.
    rewrite (updateStats_chart_kept data p (or_introl Hp)). exact Hp.
Qed.

(** X12: a [new_detection] whose listener returns, and any [stats_update],
    can be delivered twice in a row with the effect of one delivery: the
    second leaves the page exactly as the first did. *)
Theorem repeated_event_changes_nothing sv p :
  (forall data,
      metrics_complete sv data = true ->
      deliver sv (deliver sv p (new_detection data)) (new_detection data)
      = deliver sv p (new_detection data))
  /\ (forall data,
        deliver sv (deliver sv p (stats_update data)) (stats_update data)
        = deliver sv p (stats_update data)).
Proof.
  split.
  - intros data Hc. rewrite !(deliver_new_detection sv _ data Hc).
    apply metrics_written_twice.
  - intros data.
    assert (Hd : forall q, deliver sv q (stats_update data)
                           = snd (updateStats data q)).
    { intros q. unfold deliver. cbn [listener].
      pose proof (updateStats_returns data q) as Hr.
      destruct (updateStats data q) as [[u | e] q']; cbn [fst snd] in *;
        [reflexivity | discriminate Hr]. }
    rewrite !Hd. apply updateStats_twice.
Qed.

Lemma repeated_event_changes_nothing_witness :
  metrics_complete dot_selectors major_detection = true
  /\ deliver dot_selectors
       (deliver dot_selectors loaded_page (new_detection major_detection))
       (new_detection major_detection)
     = deliver dot_selectors loaded_page (new_detection major_detection).
Proof.
  split.
  - reflexivity.
  - exact (proj1 (repeated_event_changes_nothing dot_selectors loaded_page)
             major_detection eq_refl).
Defined.

(** ** Runs of stats updates *)

Lemma deliver_stats_update sv p data :
  deliver sv p (stats_update data) = snd (updateStats data p).
Proof.
  unfold deliver. cbn [listener].
  pose proof (updateStats_returns data p) as Hr.
  destruct (updateStats data p) as [[u | e] q]; cbn [fst snd] in *;
    [reflexivity | discriminate Hr].
Qed.

Lemma deliver_has_chart sv p ev : has_chart (deliver sv p ev) = has_chart p.
Proof.
  destruct (is_stats ev) eqn:Hev.
  - destruct ev as [| |data time|data|data]; try discriminate Hev.
    unfold has_chart. rewrite deliver_stats_update.
    destruct (severityChart p) as [ch|] eqn:Hp.
    + destruct (severity_counts data) as [| |c] eqn:Hd.
      * rewrite updateStats_chart_kept, Hp by auto. reflexivity.
      * rewrite updateStats_chart_kept, Hp by auto. reflexivity.
      * rewrite (updateStats_chart_written data p ch c Hp Hd). reflexivity.
    + rewrite updateStats_chart_kept, Hp by auto. reflexivity.
  - pose proof (proj1 (proj2 (deliver_outside sv p ev)) Hev) as Ha.
    unfold aggregate in Ha. injection Ha as _ Hch.
    unfold has_chart. rewrite Hch. reflexivity.
Qed.

Lemma deliver_all_has_chart sv evs : forall p,
  has_chart (deliver_all sv p evs) = has_chart p.
Proof.
  induction evs as [|ev evs IH]; intros p; [reflexivity |].
  cbn [deliver_all fold_left]. unfold deliver_all in IH.
  rewrite IH. apply deliver_has_chart.
Qed.

(** X13: the aggregate widgets are last-write-wins over runs.  After any run
    of events that ends with a [stats_update], the accidents counter is the
    one of that last payload alone, and so is the chart's data when the page
    has the chart and the payload its [severity_counts]: three entries, drawn
    as stored.  No event creates or removes the chart. *)
Theorem stats_last_write_wins sv p evs data :
  let p' := deliver_all sv p (evs ++ [stats_update data]) in
  counter24 p' = Js.num_or (accidents_detected data) 24%float
  /\ has_chart p' = has_chart p
  /\ (forall c,
        has_chart p = true -> severity_counts data = Val c ->
        severityChart p'
        = Some {| chartData := counts_dataset c; chartDrawn := counts_dataset c |}
        /\ List.length (counts_dataset c) = 3%nat).
Proof.
  intros p'. subst p'. rewrite deliver_all_snoc, deliver_stats_update.
  refine (conj (updateStats_counter data _) (conj _ _)).
  - rewrite <- (deliver_stats_update sv), deliver_has_chart.
    apply deliver_all_has_chart.
  - intros c Hch Hc.
    rewrite <- (deliver_all_has_chart sv evs p) in Hch.
    unfold has_chart in Hch.
    destruct (severityChart (deliver_all sv p evs)) as [ch|] eqn:Hq;
      [| discriminate Hch].
    split; [| reflexivity].
    apply (updateStats_chart_written data _ ch c Hq Hc).
Qed.

Lemma stats_last_write_wins_witness :
  has_chart loaded_page = true
  /\ severityChart
       (deliver_all dot_selectors loaded_page
          ([stats_update full_stats; new_detection major_detection]
           ++ [stats_update minor_5]))
     = Some {| chartData := [5; 8; 4]%float; chartDrawn := [5; 8; 4]%float |}.
Proof.
  split.
  - reflexivity.
  - exact (proj1 (proj2 (proj2
             (stats_last_write_wins dot_selectors loaded_page
                [stats_update full_stats; new_detection major_detection]
                minor_5))
             _ eq_refl eq_refl)).
Defined.

(** ** Severities that differ in case only *)

Lemma known_severity_cases k :
  In k known_severities -> k = "MINOR" \/ k = "MAJOR" \/ k = "CRITICAL".
Proof.
  unfold known_severities. simpl.
  intros [H | [H | [H | []]]]; subst; auto.
Qed.

(** A string that lower-cases like a known severity without being it is no
    key of [severity_icons] and names no member of [Object.prototype]. *)
Lemma case_variant_is_plain k s :
  In k known_severities ->
  Js.toLowerCase s = Js.toLowerCase k ->
  s <> k ->
  Js.own_property severity_icons s = None
  /\ existsb (String.eqb s) Js.object_prototype_keys = false
  /\ String.eqb s "CRITICAL" = false
  /\ String.eqb s "" = false.
Proof.
  intros Hk Hlow Hne.
  assert (Hno : forall c,
             Js.toLowerCase c <> Js.toLowerCase k \/ c = k ->
             String.eqb c s = false /\ String.eqb s c = false).
  { intros c Hc.
    destruct (String.eqb_spec c s) as [-> | Hcs].
    - destruct Hc as [Hc | Hc]; [contradiction | contradiction].
    - split; [reflexivity |].
      destruct (String.eqb_spec s c) as [-> | _];
        [contradiction Hcs; reflexivity | reflexivity]. }
  apply known_severity_cases in Hk.
  unfold severity_icons, Js.object_prototype_keys.
  cbn [Js.own_property existsb].
  destruct Hk as [-> | [-> | ->]];
    repeat match goal with
      | |- context [String.eqb ?c s] =>
          rewrite (proj1 (Hno c ltac:(first [right; reflexivity
                                            | left; vm_compute; discriminate])))
      | |- context [String.eqb s ?c] =>
          rewrite (proj2 (Hno c ltac:(first [right; reflexivity
                                            | left; vm_compute; discriminate])))
      end;
    auto.
Qed.

(** X14: a severity that matches MINOR, MAJOR or CRITICAL up to ASCII case
    only (say "Critical") is treated as known in some places and as unknown
    in others: it highlights the same severity dot and gives the timeline
    item the same colour class as the exact name, but the item gets the
    fallback icon, where the exact name has its own, and the confetti does
    not fire. *)
Theorem severity_matches_by_case_in_places k s data time :
  In k known_severities ->
  Js.toLowerCase s = Js.toLowerCase k ->
  s <> k ->
  let sent := with_severity (Val s) data in
  let exact := with_severity (Val k) data in
  severity_selector sent = severity_selector exact
  /\ severity_selector sent = Some (".severity-dot." ++ Js.toLowerCase k)
  /\ iconClass (alert_item (sent, time)) = iconClass (alert_item (exact, time))
  /\ icon (alert_item (sent, time)) = fallback_icon
  /\ icon (alert_item (exact, time)) <> fallback_icon
  /\ bursts_of (accident_alert sent time) = 0%nat.
Proof.
  intros Hk Hlow Hne sent exact.
  destruct (case_variant_is_plain k s Hk Hlow Hne) as [Hown [Hproto [Hcrit Hemp]]].
  assert (Hsel : severity_selector sent
                 = Some (".severity-dot." ++ Js.toLowerCase k)).
  { unfold severity_selector, sent. cbn [severity with_severity Js.truthy_str
                                          Js.toString].
    rewrite Hemp, Hlow. reflexivity. }
  assert (Hsel' : severity_selector exact
                  = Some (".severity-dot." ++ Js.toLowerCase k)).
  { apply known_severity_cases in Hk.
    destruct Hk as [-> | [-> | ->]]; reflexivity. }
  refine (conj _ (conj Hsel (conj _ (conj _ (conj _ _))))).
  - rewrite Hsel, Hsel'. reflexivity.
  - unfold alert_item, sent, exact.
    cbn [fst snd severity with_severity Js.toString timeline_item iconClass].
    exact Hlow.
  - unfold alert_item, sent.
    cbn [fst snd severity with_severity timeline_item icon].
    apply (getSeverityIcon_fallback s Hown Hproto).
  - unfold alert_item, exact.
    cbn [fst snd severity with_severity timeline_item icon].
    apply known_severity_cases in Hk.
    destruct Hk as [-> | [-> | ->]]; vm_compute; discriminate.
  - unfold bursts_of, sent.
    cbn [severity with_severity Js.strict_eq]. rewrite Hcrit. reflexivity.
Qed.

Lemma severity_matches_by_case_in_places_witness :
  In "CRITICAL" known_severities
  /\ Js.toLowerCase "Critical" = Js.toLowerCase "CRITICAL"
  /\ icon (alert_item (with_severity (Val "Critical") major_detection,
                       "10:15:00"))
     = fallback_icon
  /\ bursts_of (accident_alert (with_severity (Val "Critical") major_detection)
                  "10:15:00") = 0%nat.
Proof.
  assert (Hk : In "CRITICAL" known_severities) by (simpl; auto).
  assert (Hne : "Critical" <> "CRITICAL") by discriminate.
  pose proof (severity_matches_by_case_in_places "CRITICAL" "Critical"
                major_detection "10:15:00" Hk eq_refl Hne) as H.
  refine (conj Hk (conj eq_refl (conj _ _))).
  - exact (proj1 (proj2 (proj2 (proj2 H)))).
  - exact (proj2 (proj2 (proj2 (proj2 (proj2 H))))).
Defined.

(** ** The limit of ten, on a timeline with a text node *)

Lemma deliver_all_alerts_steps sv alerts : forall p,
  alertTimeline (deliver_all sv p (map alert_event alerts))
  = fold_left (fun timeline a => timeline_step (fst a) (snd a) timeline)
      alerts (alertTimeline p).
Proof.
  induction alerts as [|a alerts IH]; intros p; [reflexivity |].
  cbn [map deliver_all fold_left]. unfold deliver_all in IH. rewrite IH.
  rewrite deliver_timeline. unfold alert_event. cbn [listener].
  rewrite handleAccidentAlert_timeline_step. reflexivity.
Qed.

(** C4 fails on the code.  On a page whose timeline holds one text node,
    twelve alerts leave eleven items, not ten: at the eleventh alert
    [children.length] is 11 and [removeChild(lastChild)] removes the text
    node.  And an alert without a severity string puts no item in front. *)
Theorem C4_limit_of_ten_is_missed sv p :
  alertTimeline p = Some [NonElement] ->
  let after := alertTimeline (deliver_all sv p (map alert_event twelve_alerts)) in
  option_map items after = Some 11%nat
  /\ option_map strays after = Some 0%nat
  /\ (forall data time,
        carries_severity data = false ->
        alertTimeline (deliver sv p (accident_alert data time))
        = alertTimeline p).
Proof.
  intros Hn after. subst after.
  rewrite deliver_all_alerts_steps, Hn.
  refine (conj _ (conj _ _)).
  - vm_compute. reflexivity.
  - vm_compute. reflexivity.
  - intros data time Hs. rewrite deliver_timeline. cbn [listener].
    rewrite handleAccidentAlert_timeline_step, Hn.
    unfold timeline_step. unfold carries_severity in Hs.
    destruct (severity data); [reflexivity | reflexivity | discriminate Hs].
Qed.

Lemma C4_limit_of_ten_is_missed_witness :
  alertTimeline whitespace_page = Some [NonElement]
  /\ List.length twelve_alerts = 12%nat
  /\ option_map items
       (alertTimeline (deliver_all dot_selectors whitespace_page
                         (map alert_event twelve_alerts)))
     = Some 11%nat.
Proof.
  refine (conj eq_refl (conj eq_refl _)).
  exact (proj1 (C4_limit_of_ten_is_missed dot_selectors whitespace_page eq_refl)).
Defined.
